(** * app.js: the business-action classifier and the page around it

    A shallow embedding of [src/h1/app.js]:
    - [determineBusinessAction] (lines 48-79), the classifier;
    - [displaySentiment] (lines 229-297), which parses the inference
      result, substitutes the fallback values and calls the classifier;
    - [logToGoogleSheets] (lines 208-226), the fire-and-forget logger;
    - the rest of the page: loading the reviews and the model, the
      click, the saved token.

    The classifier is embedded twice.  The first embedding takes the
    reading the specification states its properties in: a confidence is
    a real number, arithmetic on finite values is exact (rational), and
    [NaN], [Infinity] and [-Infinity], which [typeof] also reports as
    ["number"], are kept.  The second, [Binary64], has the engine's
    numbers, with rounded literals and a rounded subtraction; the two
    differ where rounding decides a branch.  Strings are byte strings
    (UTF-8); the string primitives of the host ([toUpperCase],
    [toFixed], [JSON.stringify]) are an interface, with one executable
    instance. *)

From Stdlib Require Import Arith ZArith QArith Qround.
From Stdlib Require Import String Ascii DecimalString List Bool Lia Lqa.
From Stdlib Require Floats Uint63.
Import ListNotations.
Open Scope string_scope.

(** ** JavaScript values *)

(** A JavaScript number: a finite value, or one of the special values. *)
Inductive number : Type :=
| Finite (q : Q)
| NaN
| PosInfinity
| NegInfinity.

(** [a - b] *)
Definition num_sub (a b : number) : number :=
  match a, b with
  | NaN, _ | _, NaN => NaN
  | Finite x, Finite y => Finite (x - y)
  | Finite _, PosInfinity => NegInfinity
  | Finite _, NegInfinity => PosInfinity
  | PosInfinity, PosInfinity => NaN
  | PosInfinity, _ => PosInfinity
  | NegInfinity, NegInfinity => NaN
  | NegInfinity, _ => NegInfinity
  end.

(** [a * b] *)
Definition num_mul (a b : number) : number :=
  let sign_times (q : Q) (pos : bool) : number :=
    match Qcompare q 0 with
    | Eq => NaN
    | Gt => if pos then PosInfinity else NegInfinity
    | Lt => if pos then NegInfinity else PosInfinity
    end in
  match a, b with
  | NaN, _ | _, NaN => NaN
  | Finite x, Finite y => Finite (x * y)
  | Finite x, PosInfinity | PosInfinity, Finite x => sign_times x true
  | Finite x, NegInfinity | NegInfinity, Finite x => sign_times x false
  | PosInfinity, PosInfinity | NegInfinity, NegInfinity => PosInfinity
  | PosInfinity, NegInfinity | NegInfinity, PosInfinity => NegInfinity
  end.

(** [a <= b]: false as soon as one side is [NaN]. *)
Definition num_leb (a b : number) : bool :=
  match a, b with
  | NaN, _ | _, NaN => false
  | Finite x, Finite y => Qle_bool x y
  | NegInfinity, _ => true
  | _, PosInfinity => true
  | _, _ => false
  end.

(** [a < b]: false as soon as one side is [NaN]. *)
Definition num_ltb (a b : number) : bool :=
  match a, b with
  | NaN, _ | _, NaN => false
  | Finite x, Finite y => negb (Qle_bool y x)
  | PosInfinity, _ => false
  | _, NegInfinity => false
  | _, _ => true
  end.

(** [a > b] *)
Definition num_gtb (a b : number) : bool := num_ltb b a.

(** The values the page can meet: primitives, arrays and plain objects
    (an object is its list of own properties, first binding wins). *)
#[local] Unset Elimination Schemes.
Inductive value : Type :=
| VUndefined
| VNull
| VBoolean (b : bool)
| VNumber (n : number)
| VString (s : string)
| VArray (items : list value)
| VObject (props : list (string * value)).
#[local] Set Elimination Schemes.

(** ToBoolean: what [if (v)], [v ? _ : _] and [v && _] test. *)
Definition truthy (v : value) : bool :=
  match v with
  | VUndefined | VNull => false
  | VBoolean b => b
  | VNumber (Finite q) => negb (Qeq_bool q 0)
  | VNumber NaN => false
  | VNumber _ => true
  | VString s => negb (s =? EmptyString)
  | VArray _ | VObject _ => true
  end.

(** [typeof v] *)
Definition typeof (v : value) : string :=
  match v with
  | VUndefined => "undefined"
  | VNull => "object"
  | VBoolean _ => "boolean"
  | VNumber _ => "number"
  | VString _ => "string"
  | VArray _ | VObject _ => "object"
  end.

(** [Array.isArray(v)] *)
Definition isArray (v : value) : bool :=
  match v with VArray _ => true | _ => false end.

Fixpoint lookup (key : string) (props : list (string * value)) : option value :=
  match props with
  | [] => None
  | (k, v) :: rest => if k =? key then Some v else lookup key rest
  end.

(** [v.key] for the data properties read here ([label] and [score]):
    an own property of a plain object, and [undefined] when the object
    has none of that name or the value is an array or a primitive. *)
Definition get_prop (v : value) (key : string) : value :=
  match v with
  | VObject props =>
      match lookup key props with Some x => x | None => VUndefined end
  | _ => VUndefined
  end.

(** What a call can end in: a returned value or a thrown error. *)
Inductive error : Type :=
| TypeError (message : string)
| Error (message : string)
| Thrown (v : value).

Inductive completion (A : Type) : Type :=
| Returned (a : A)
| Threw (e : error).
Arguments Returned {A} a.
Arguments Threw {A} e.

(** ASCII strings and their upper-casing. *)
Definition isAsciiChar (c : ascii) : bool := (nat_of_ascii c <? 128)%nat.

Fixpoint isAscii (s : string) : bool :=
  match s with
  | EmptyString => true
  | String c rest => isAsciiChar c && isAscii rest
  end.

Definition upperChar (c : ascii) : ascii :=
  let n := nat_of_ascii c in
  if ((97 <=? n) && (n <=? 122))%nat then ascii_of_nat (n - 32) else c.

Fixpoint asciiUpper (s : string) : string :=
  match s with
  | EmptyString => EmptyString
  | String c rest => String (upperChar c) (asciiUpper rest)
  end.

(** The string primitives of the host.  [String.prototype.toUpperCase]
    follows Unicode, so only its behaviour on ASCII strings is fixed
    here; number formatting and JSON serialisation are left open. *)
Class Host : Type := {
  toUpperCase : string -> string;
  toUpperCase_ascii : forall s, isAscii s = true -> toUpperCase s = asciiUpper s;
  toFixed : number -> nat -> string;
  JSON_stringify : value -> string
}.

(** Numeric literals of the source. *)
Definition lit_1_0 : number := Finite 1.
Definition lit_0_5 : number := Finite 0.5.
Definition lit_0_4 : number := Finite 0.4.
Definition lit_0_7 : number := Finite 0.7.
Definition lit_100 : number := Finite 100.

(** ** The classifier (lines 42-79) *)

(** The object literal [{ actionCode, uiMessage, uiColor }]. *)
Record BusinessAction : Type := {
  actionCode : string;
  uiMessage : string;
  uiColor : string
}.

Definition OFFER_COUPON : BusinessAction := {|
  actionCode := "OFFER_COUPON";
  uiMessage := "🚨 We are truly sorry. Please accept this 50% discount coupon.";
  uiColor := "#ef4444"
|}.

Definition REQUEST_FEEDBACK : BusinessAction := {|
  actionCode := "REQUEST_FEEDBACK";
  uiMessage := "📝 Thank you! Could you tell us how we can improve?";
  uiColor := "#6b7280"
|}.

Definition ASK_REFERRAL : BusinessAction := {|
  actionCode := "ASK_REFERRAL";
  uiMessage := "⭐ Glad you liked it! Refer a friend and earn rewards.";
  uiColor := "#3b82f6"
|}.

Section Classifier.
Context {host : Host}.

(** [label.toUpperCase()]: only a string has the method; on any other
    value the property is missing and the call throws. *)
Definition call_toUpperCase (label : value) : completion string :=
  match label with
  | VString s => Returned (toUpperCase s)
  | _ => Threw (TypeError "label.toUpperCase is not a function")
  end.

(** Line 51: [const upperLabel = label ? label.toUpperCase() : '';] *)
Definition upperLabel (label : value) : completion string :=
  if truthy label then call_toUpperCase label else Returned EmptyString.

(** Lines 50 and 53-57: the local [normalizedScore], from its default
    [0.5] through the two label branches. *)
Definition normalizedScore (confidence : number) (upperLabel : string) : number :=
  if upperLabel =? "POSITIVE" then confidence
  else if upperLabel =? "NEGATIVE" then num_sub lit_1_0 confidence
  else lit_0_5.

(** Lines 59-78: the business thresholds. *)
Definition applyThresholds (normalizedScore : number) : BusinessAction :=
  if num_leb normalizedScore lit_0_4 then OFFER_COUPON
  else if num_ltb normalizedScore lit_0_7 then REQUEST_FEEDBACK
  else ASK_REFERRAL.

Definition determineBusinessAction (confidence : number) (label : value)
  : completion BusinessAction :=
  match upperLabel label with
  | Returned upper => Returned (applyThresholds (normalizedScore confidence upper))
  | Threw e => Threw e
  end.

End Classifier.

(** ** The classifier over binary64 (lines 42-79)

    The same lines with the numbers of the engine: IEEE 754 binary64.
    A literal is the double nearest to it, and [1.0 - confidence] is the
    difference rounded to nearest, ties to even, so that for instance
    [1.0 - 0.30000000000000004] is the double of [0.7].  The label is
    handled by [upperLabel] as above. *)

Module Binary64.
Import PrimFloat.
#[local] Set Warnings "-inexact-float".

Definition lit_1_0 : float := 1.0.
Definition lit_0_5 : float := 0.5.
Definition lit_0_4 : float := 0.4.
Definition lit_0_7 : float := 0.7.

Section Classifier.
Context {host : Host}.

(** Lines 50 and 53-57. *)
Definition normalizedScore (confidence : float) (upperLabel : string) : float :=
  if upperLabel =? "POSITIVE" then confidence
  else if upperLabel =? "NEGATIVE" then sub lit_1_0 confidence
  else lit_0_5.

(** Lines 59-78. *)
Definition applyThresholds (normalizedScore : float) : BusinessAction :=
  if leb normalizedScore lit_0_4 then OFFER_COUPON
  else if ltb normalizedScore lit_0_7 then REQUEST_FEEDBACK
  else ASK_REFERRAL.

Definition determineBusinessAction (confidence : float) (label : value)
  : completion BusinessAction :=
  match upperLabel label with
  | Returned upper => Returned (applyThresholds (normalizedScore confidence upper))
  | Threw e => Threw e
  end.

End Classifier.

(** [Math.floor(x)] read as an array index: the integer below a finite
    [x], and no index for [NaN] and the infinities. *)
Definition floor_index (x : float) : option Z :=
  match FloatOps.Prim2SF x with
  | SpecFloat.S754_zero _ => Some 0%Z
  | SpecFloat.S754_finite s m e => Some (Z.shiftl (SpecFloat.cond_Zopp s (Zpos m)) e)
  | _ => None
  end.

(** [array.length] as a number (a length is below [2^32]). *)
Definition of_length (n : nat) : float :=
  of_uint63 (Uint63.of_Z (Z.of_nat n)).

(** Line 166: [Math.floor(Math.random() * reviews.length)]. *)
Definition random_index (random : float) (count : nat) : option Z :=
  floor_index (mul random (of_length count)).

(** A right shift in progress, as the rounding of a product performs
    it: [mrs] is what is left of the mantissa [X] once the positions
    below [T], a power of two, are dropped.  The kept part is the
    quotient, and the round bit is set only from the half of [T] on. *)
Definition shifted (T : Z) (mrs : SpecFloat.shr_record) (X : Z) : Prop :=
  (0 <= SpecFloat.shr_m mrs)%Z /\
  (SpecFloat.shr_m mrs * T <= X < (SpecFloat.shr_m mrs + 1) * T)%Z /\
  (SpecFloat.shr_r mrs = true -> ((2 * SpecFloat.shr_m mrs + 1) * T <= 2 * X)%Z).

(** Two values of [Math.random()] for the examples. *)
Definition three_quarters : float := 0.75.
Definition two_thirds_below : float := 0.6666666666666666.

End Binary64.

(** ** The page: what the two callers read and write *)

(** The element [#action-result]. *)
Record ActionDiv : Type := {
  ad_textContent : string;
  ad_backgroundColor : string;
  ad_color : string;
  ad_border : string;
  ad_classList : list string
}.

(** The elements [displaySentiment] touches. *)
Record Page : Type := {
  reviewText_textContent : string;
  sentimentResult_classList : list string;
  sentimentResult_innerHTML : string;
  actionResult : ActionDiv
}.

(** What [navigator], [screen] and the clock answer when [meta] is built. *)
Record Client : Type := {
  userAgent : string;
  platform : string;
  language : string;
  screenSize : string;
  timestamp : string
}.

(** A [fetch] call and the two ways it settles. *)
Record Request : Type := {
  req_url : string;
  req_method : string;
  req_body : list (string * string)
}.

Inductive FetchOutcome : Type :=
| Response (ok : bool) (statusText : string)
| Rejected (reason : error).

(** One [console.warn(message, detail)]. *)
Inductive Detail : Type :=
| DetailString (s : string)
| DetailError (e : error).

Record Warning : Type := {
  warn_message : string;
  warn_detail : Detail
}.

Record World : Type := {
  page : Page;
  client : Client;
  console : list Warning;
  sent : list Request;
  network : Request -> FetchOutcome
}.

(** Effectful code: a run starts in a world and ends, returned or
    thrown, in another one; what was written before a throw stays. *)
Definition M (A : Type) : Type := World -> completion A * World.

Definition ret {A} (a : A) : M A := fun w => (Returned a, w).

Definition throw {A} (e : error) : M A := fun w => (Threw e, w).

Definition bind {A B} (m : M A) (k : A -> M B) : M B :=
  fun w =>
    match m w with
    | (Returned a, w') => k a w'
    | (Threw e, w') => (Threw e, w')
    end.

(** [try { body } catch (error) { handler }] *)
Definition try_catch {A} (body : M A) (handler : error -> M A) : M A :=
  fun w =>
    match body w with
    | (Returned a, w') => (Returned a, w')
    | (Threw e, w') => handler e w'
    end.

(** A call whose promise nobody awaits: its settlement is dropped. *)
Definition fire_and_forget {A} (m : M A) : M unit :=
  fun w => (Returned tt, snd (m w)).

Definition lift {A} (c : completion A) : M A := fun w => (c, w).

Declare Scope js_scope.
Delimit Scope js_scope with js.
Notation "x <- m ;; k" := (bind m (fun x => k))
  (at level 100, m at next level, right associativity) : js_scope.
Notation "m ;; k" := (bind m (fun _ => k))
  (at level 100, right associativity) : js_scope.

Definition update_page (f : Page -> Page) : M unit :=
  fun w => (Returned tt,
            {| page := f (page w); client := client w; console := console w;
               sent := sent w; network := network w |}).

(** [console.warn(message, detail)] *)
Definition console_warn (message : string) (detail : Detail) : M unit :=
  fun w => (Returned tt,
            {| page := page w; client := client w;
               console := console w ++ [{| warn_message := message; warn_detail := detail |}];
               sent := sent w; network := network w |}).

(** [await fetch(url, { method, body })]: the request leaves, and the
    network answers with a response or a rejection. *)
Definition fetch (req : Request) : M (bool * string) :=
  fun w =>
    let w' := {| page := page w; client := client w; console := console w;
                 sent := sent w ++ [req]; network := network w |} in
    match network w req with
    | Response ok statusText => (Returned (ok, statusText), w')
    | Rejected reason => (Threw reason, w')
    end.

Definition GAS_WEB_APP_URL : string :=
  "https://script.google.com/macros/s/AKfycbxt0k1VUS7bqy0HMJtNttYh3YvUwMGCHKOhnTR6XTiG45LCjz7bjXRc-en7ixZDtS_MMg/exec".

(** ** The logger and the renderer (lines 207-309) *)

Definition newline : string := String (ascii_of_nat 10) EmptyString.
Definition quote : string := String (ascii_of_nat 34) EmptyString.

(** [result.length] and [result[i]] on an array. *)
Definition arr_length (v : value) : nat :=
  match v with VArray items => length items | _ => 0 end.

Definition arr_item (v : value) (i : nat) : value :=
  match v with VArray items => nth i items VUndefined | _ => VUndefined end.

(** [element.classList.add(token)] *)
Definition classList_add (token : string) (classes : list string) : list string :=
  if existsb (String.eqb token) classes then classes else classes ++ [token].

(** Lines 299-309. *)
Definition getSentimentIcon (sentiment : string) : string :=
  if sentiment =? "positive" then "fa-thumbs-up"
  else if sentiment =? "negative" then "fa-thumbs-down"
  else "fa-question-circle".

(** The three locals of [displaySentiment]. *)
Record Locals : Type := {
  sentiment : string;
  score : number;
  label : string
}.

Section Callers.
Context {host : Host}.
Local Open Scope js_scope.

(** Lines 208-226. *)
Definition logToGoogleSheets (review sentimentStr actionCode : string) (meta : value)
  : M unit :=
  let formData :=
    [("review", review); ("sentiment", sentimentStr);
     ("action", actionCode); ("meta", JSON_stringify meta)] in
  try_catch
    (response <- fetch {| req_url := GAS_WEB_APP_URL; req_method := "POST";
                          req_body := formData |} ;;
     let '(ok, statusText) := response in
     if negb ok
     then console_warn "Failed to log to Google Sheets:" (DetailString statusText)
     else ret tt)
    (fun error => console_warn "Error logging to Google Sheets:" (DetailError error)).

(** Lines 230-263: the defaults, the shape test on [result] and the
    substitution of the fallback values. *)
Definition parseResult (result : value) : Locals :=
  let defaults := {| sentiment := "neutral"; score := lit_0_5; label := "NEUTRAL" |} in
  if isArray result && (0 <? arr_length result)%nat
     && isArray (arr_item result 0) && (0 <? arr_length (arr_item result 0))%nat
  then
    let sentimentData := arr_item (arr_item result 0) 0 in
    if truthy sentimentData && (typeof sentimentData =? "object") then
      let label :=
        match get_prop sentimentData "label" with
        | VString s => toUpperCase s        (* typeof ... === "string" *)
        | _ => "NEUTRAL"
        end in
      let score :=
        match get_prop sentimentData "score" with
        | VNumber n => n                    (* typeof ... === "number" *)
        | _ => lit_0_5
        end in
      let sentiment :=
        if (label =? "POSITIVE") && num_gtb score lit_0_5 then "positive"
        else if (label =? "NEGATIVE") && num_gtb score lit_0_5 then "negative"
        else "neutral" in
      {| sentiment := sentiment; score := score; label := label |}
    else defaults
  else defaults.

(** Line 265: [`${label} (${(score * 100).toFixed(1)}%)`] *)
Definition sentimentStrOf (l : Locals) : string :=
  label l ++ " (" ++ toFixed (num_mul (score l) lit_100) 1 ++ "%)".

(** Lines 267-297: render the sentiment, classify, render the action and
    hand the interaction to the logger without awaiting it. *)
Definition render (l : Locals) : M unit :=
  let sentimentStr := sentimentStrOf l in
  update_page (fun p =>
    {| reviewText_textContent := reviewText_textContent p;
       sentimentResult_classList := classList_add (sentiment l) (sentimentResult_classList p);
       sentimentResult_innerHTML :=
         newline ++ "        <i class=" ++ quote ++ "fas " ++ getSentimentIcon (sentiment l)
         ++ " icon" ++ quote ++ "></i>" ++ newline
         ++ "        <span>" ++ sentimentStr ++ "</span>" ++ newline ++ "    ";
       actionResult := actionResult p |}) ;;
  decision <- lift (determineBusinessAction (score l) (VString (label l))) ;;
  update_page (fun p =>
    {| reviewText_textContent := reviewText_textContent p;
       sentimentResult_classList := sentimentResult_classList p;
       sentimentResult_innerHTML := sentimentResult_innerHTML p;
       actionResult :=
         {| ad_textContent := uiMessage decision;
            ad_backgroundColor := uiColor decision ++ "20";
            ad_color := uiColor decision;
            ad_border := "2px solid " ++ uiColor decision;
            ad_classList := classList_add "show" (ad_classList (actionResult p)) |} |}) ;;
  fun w =>
    let meta := VObject
      [("userAgent", VString (userAgent (client w)));
       ("platform", VString (platform (client w)));
       ("language", VString (language (client w)));
       ("screen", VString (screenSize (client w)));
       ("timestamp", VString (timestamp (client w)))] in
    let review := reviewText_textContent (page w) in
    fire_and_forget (logToGoogleSheets review sentimentStr (actionCode decision) meta) w.

(** Lines 229-297. *)
Definition displaySentiment (result : value) : M unit :=
  render (parseResult result).

End Callers.

(** ** The rest of the page (lines 5-40, 82-206 and 311-320)

    The module's three globals, the controls around the result, the
    browser's storage and what lies outside the page: the random
    source, the reviews file, the TSV parser and the model loader. *)

(** [String.prototype.trim] and the conversion of a value to text. *)
Class TextHost : Type := {
  trim : string -> string;
  toString : value -> string;
  toString_string : forall s, toString (VString s) = s
}.

(** The text-classification pipeline, as far as its calls settle: a
    call resolves with the model's output or rejects.  A promise that
    stays pending for ever is outside this model: nothing after the
    [await] would run. *)
Definition Pipeline : Type := value -> completion value.

(** Lines 6-8. *)
Record Globals : Type := {
  reviews : list value;
  apiToken : string;
  sentimentPipeline : option Pipeline
}.

(** Lines 14-20, without the three elements of [Page]; the status label
    is optional. *)
Record Controls : Type := {
  errorElement_textContent : string;
  errorElement_display : string;
  loadingElement_display : string;
  analyzeBtn_disabled : bool;
  apiTokenInput_value : string;
  statusElement_textContent : option string
}.

(** How [fetch("reviews_test.tsv")] and [response.text()] settle. *)
Inductive TsvOutcome : Type :=
| TsvResponse (ok : bool) (text : completion string)
| TsvRejected (reason : error).

(** Papa Parse with [header: true] hands an array of row objects to
    [complete], or an error to [error]. *)
Inductive ParseOutcome : Type :=
| ParseComplete (data : list (list (string * value)))
| ParseFailed (e : error).

Record Outside : Type := {
  mathRandom : PrimFloat.float;
  tsvFetch : TsvOutcome;
  papaParse : string -> ParseOutcome;
  loadModel : completion Pipeline
}.

(** [console.error(message, error)] and [console.log(...args)]. *)
Inductive Entry : Type :=
| ConsoleError (message : string) (e : error)
| ConsoleLog (args : list value).

Record App : Type := {
  world : World;
  globals : Globals;
  controls : Controls;
  localStorage : string -> option string;
  journal : list Entry;
  outside : Outside
}.

(** Code over the whole application state. *)
Definition Run (A : Type) : Type := App -> completion A * App.

Definition run_ret {A} (a : A) : Run A := fun s => (Returned a, s).

Definition run_throw {A} (e : error) : Run A := fun s => (Threw e, s).

Definition run_bind {A B} (m : Run A) (k : A -> Run B) : Run B :=
  fun s =>
    match m s with
    | (Returned a, s') => k a s'
    | (Threw e, s') => (Threw e, s')
    end.

(** [try { body } catch (error) { handler }], and a promise's [.catch]. *)
Definition run_catch {A} (body : Run A) (handler : error -> Run A) : Run A :=
  fun s =>
    match body s with
    | (Returned a, s') => (Returned a, s')
    | (Threw e, s') => handler e s'
    end.

(** A promise's [.finally]: the cleanup runs either way, and the
    settlement is the body's unless the cleanup throws. *)
Definition run_finally {A} (body : Run A) (cleanup : Run unit) : Run A :=
  fun s =>
    match body s with
    | (r, s') =>
        match cleanup s' with
        | (Returned _, s'') => (r, s'')
        | (Threw e, s'') => (Threw e, s'')
        end
    end.

(** A promise chain nobody awaits. *)
Definition detach {A} (m : Run A) : Run unit :=
  fun s => (Returned tt, snd (m s)).

Definition run_lift {A} (c : completion A) : Run A := fun s => (c, s).

(** Code over the world, run inside the application. *)
Definition in_world {A} (m : M A) : Run A :=
  fun s =>
    match m (world s) with
    | (r, w') =>
        (r, {| world := w'; globals := globals s; controls := controls s;
               localStorage := localStorage s; journal := journal s;
               outside := outside s |})
    end.

Declare Scope app_scope.
Delimit Scope app_scope with app.
Notation "x <- m ;; k" := (run_bind m (fun x => k))
  (at level 100, m at next level, right associativity) : app_scope.
Notation "m ;; k" := (run_bind m (fun _ => k))
  (at level 100, right associativity) : app_scope.

Definition update_globals (f : Globals -> Globals) : Run unit :=
  fun s => (Returned tt,
            {| world := world s; globals := f (globals s); controls := controls s;
               localStorage := localStorage s; journal := journal s;
               outside := outside s |}).

Definition update_controls (f : Controls -> Controls) : Run unit :=
  fun s => (Returned tt,
            {| world := world s; globals := globals s; controls := f (controls s);
               localStorage := localStorage s; journal := journal s;
               outside := outside s |}).

Definition update_storage (f : (string -> option string) -> string -> option string)
  : Run unit :=
  fun s => (Returned tt,
            {| world := world s; globals := globals s; controls := controls s;
               localStorage := f (localStorage s); journal := journal s;
               outside := outside s |}).

Definition console_entry (e : Entry) : Run unit :=
  fun s => (Returned tt,
            {| world := world s; globals := globals s; controls := controls s;
               localStorage := localStorage s; journal := (journal s ++ [e])%list;
               outside := outside s |}).

(** [localStorage.setItem(key, v)] and [localStorage.removeItem(key)]. *)
Definition setItem (key v : string) (store : string -> option string)
  : string -> option string :=
  fun k => if k =? key then Some v else store k.

Definition removeItem (key : string) (store : string -> option string)
  : string -> option string :=
  fun k => if k =? key then None else store k.

(** [element.textContent = v]: [null] and [undefined] clear the text. *)
Definition textContent_of {text : TextHost} (v : value) : string :=
  match v with
  | VUndefined | VNull => EmptyString
  | _ => toString v
  end.

(** [array[i]] for an integer [i], and for what [Math.floor] returned:
    there is no item at a negative index, past the end, or at [NaN]. *)
Definition arr_index (items : list value) (i : Z) : value :=
  if (i <? 0)%Z then VUndefined else nth (Z.to_nat i) items VUndefined.

Definition arr_at (items : list value) (i : option Z) : value :=
  match i with
  | Some i => arr_index items i
  | None => VUndefined
  end.

(** [error.message] on what was caught: reading it off [null] or
    [undefined] throws. *)
Definition error_message (e : error) : completion value :=
  match e with
  | TypeError message | Error message => Returned (VString message)
  | Thrown VUndefined =>
      Threw (TypeError "Cannot read properties of undefined (reading 'message')")
  | Thrown VNull =>
      Threw (TypeError "Cannot read properties of null (reading 'message')")
  | Thrown v => Returned (get_prop v "message")
  end.

Section Application.
Context {host : Host} {text : TextHost}.
Local Open Scope app_scope.

(** Lines 311-315. *)
Definition showError (message : string) : Run unit :=
  update_controls (fun c =>
    {| errorElement_textContent := message;
       errorElement_display := "block";
       loadingElement_display := loadingElement_display c;
       analyzeBtn_disabled := analyzeBtn_disabled c;
       apiTokenInput_value := apiTokenInput_value c;
       statusElement_textContent := statusElement_textContent c |}).

(** Lines 317-320. *)
Definition hideError : Run unit :=
  update_controls (fun c =>
    {| errorElement_textContent := errorElement_textContent c;
       errorElement_display := "none";
       loadingElement_display := loadingElement_display c;
       analyzeBtn_disabled := analyzeBtn_disabled c;
       apiTokenInput_value := apiTokenInput_value c;
       statusElement_textContent := statusElement_textContent c |}).

(** [if (statusElement) statusElement.textContent = message;] *)
Definition set_status (message : string) : Run unit :=
  update_controls (fun c =>
    {| errorElement_textContent := errorElement_textContent c;
       errorElement_display := errorElement_display c;
       loadingElement_display := loadingElement_display c;
       analyzeBtn_disabled := analyzeBtn_disabled c;
       apiTokenInput_value := apiTokenInput_value c;
       statusElement_textContent :=
         match statusElement_textContent c with
         | Some _ => Some message
         | None => None
         end |}).

(** [loadingElement.style.display = display; analyzeBtn.disabled = disabled;] *)
Definition set_loading (display : string) (disabled : bool) : Run unit :=
  update_controls (fun c =>
    {| errorElement_textContent := errorElement_textContent c;
       errorElement_display := errorElement_display c;
       loadingElement_display := display;
       analyzeBtn_disabled := disabled;
       apiTokenInput_value := apiTokenInput_value c;
       statusElement_textContent := statusElement_textContent c |}).

(** Lines 31-36 of the [DOMContentLoaded] handler: a saved token goes
    back into the input and into [apiToken]. *)
Definition restoreSavedToken : Run unit :=
  fun s =>
    match localStorage s "hfApiToken" with
    | Some savedToken =>
        if negb (savedToken =? EmptyString) then
          (update_controls (fun c =>
             {| errorElement_textContent := errorElement_textContent c;
                errorElement_display := errorElement_display c;
                loadingElement_display := loadingElement_display c;
                analyzeBtn_disabled := analyzeBtn_disabled c;
                apiTokenInput_value := savedToken;
                statusElement_textContent := statusElement_textContent c |}) ;;
           update_globals (fun g =>
             {| reviews := reviews g; apiToken := savedToken;
                sentimentPipeline := sentimentPipeline g |})) s
        else run_ret tt s
    | None => run_ret tt s
    end.

(** Lines 142-149. *)
Definition saveApiToken : Run unit :=
  fun s =>
    let token := trim (apiTokenInput_value (controls s)) in
    (update_globals (fun g =>
       {| reviews := reviews g; apiToken := token;
          sentimentPipeline := sentimentPipeline g |}) ;;
     if negb (token =? EmptyString)
     then update_storage (setItem "hfApiToken" token)
     else update_storage (removeItem "hfApiToken")) s.

(** Lines 83-108. *)
Definition initSentimentModel : Run unit :=
  run_catch
    (set_status "Loading sentiment model..." ;;
     loaded <- (fun s => run_lift (loadModel (outside s)) s) ;;
     update_globals (fun g =>
       {| reviews := reviews g; apiToken := apiToken g;
          sentimentPipeline := Some loaded |}) ;;
     set_status "Sentiment model ready")
    (fun error =>
       console_entry (ConsoleError "Failed to load sentiment model:" error) ;;
       showError "Failed to load sentiment model. Please check your network connection and try again." ;;
       set_status "Model load failed").

(** Lines 124-126: the [text] column of each row, kept when it is a
    string that is not blank. *)
Definition keepReviews (data : list (list (string * value))) : list value :=
  filter (fun text =>
            match text with
            | VString s => negb (trim s =? EmptyString)   (* typeof text === "string" && ... *)
            | _ => false
            end)
         (map (fun row => get_prop (VObject row) "text") data).

(** ["prefix" + error.message] *)
Definition with_message (prefix : string) (e : error) : Run string :=
  message <- run_lift (error_message e) ;;
  run_ret (prefix ++ toString message).

(** Lines 111-139: the promise chain runs on its own. *)
Definition loadReviews : Run unit :=
  detach
    (run_catch
       (tsvData <- (fun s =>
                      match tsvFetch (outside s) with
                      | TsvResponse ok body =>
                          if negb ok then run_throw (Error "Failed to load TSV file") s
                          else run_lift body s
                      | TsvRejected reason => run_throw reason s
                      end) ;;
        fun s =>
          match papaParse (outside s) tsvData with
          | ParseComplete data =>
              (update_globals (fun g =>
                 {| reviews := keepReviews data; apiToken := apiToken g;
                    sentimentPipeline := sentimentPipeline g |}) ;;
               console_entry (ConsoleLog
                 [VString "Loaded";
                  VNumber (Finite (inject_Z (Z.of_nat (length (keepReviews data)))));
                  VString "reviews"])) s
          | ParseFailed error =>
              (console_entry (ConsoleError "TSV parse error:" error) ;;
               message <- with_message "Failed to parse TSV file: " error ;;
               showError message) s
          end)
       (fun error =>
          console_entry (ConsoleError "TSV load error:" error) ;;
          message <- with_message "Failed to load TSV file: " error ;;
          showError message)).

(** Lines 191-206. *)
Definition analyzeSentiment (review : value) : Run value :=
  fun s =>
    match sentimentPipeline (globals s) with
    | None => run_throw (Error "Sentiment model is not initialized.") s
    | Some pipeline =>
        (output <- run_lift (pipeline review) ;;
         if negb (isArray output) || (arr_length output =? 0)%nat
         then run_throw (Error "Invalid sentiment output from local model.")
         else run_ret (VArray [output])) s
    end.

(** Lines 168-175: the review goes on the page, the loading state is
    shown and the previous result is cleared. *)
Definition beginAnalysis (selectedReview : value) : Run unit :=
  in_world (update_page (fun p =>
    {| reviewText_textContent := textContent_of selectedReview;
       sentimentResult_classList := sentimentResult_classList p;
       sentimentResult_innerHTML := sentimentResult_innerHTML p;
       actionResult := actionResult p |})) ;;
  set_loading "block" true ;;
  in_world (update_page (fun p =>
    {| reviewText_textContent := reviewText_textContent p;
       sentimentResult_classList := ["sentiment-result"];
       sentimentResult_innerHTML := EmptyString;
       actionResult := actionResult p |})).

(** Lines 178-187: the promise chain, run when the promise of
    [analyzeSentiment] settles. *)
Definition settleAnalysis (selectedReview : value) : Run unit :=
  run_finally
    (run_catch
       (result <- analyzeSentiment selectedReview ;;
        in_world (displaySentiment result))
       (fun error =>
          console_entry (ConsoleError "Error:" error) ;;
          message <- run_lift (error_message error) ;;
          showError (if truthy message then toString message
                     else "Failed to analyze sentiment.")))
    (set_loading "none" false).

(** Lines 152-188; the index is computed in binary64, as line 166 does. *)
Definition analyzeRandomReview : Run unit :=
  hideError ;;
  fun s =>
    if (length (reviews (globals s)) =? 0)%nat then
      showError "No reviews available. Please try again later." s
    else
      match sentimentPipeline (globals s) with
      | None => showError "Sentiment model is not ready yet. Please wait a moment." s
      | Some _ =>
          let selectedReview :=
            arr_at (reviews (globals s))
                   (Binary64.random_index (mathRandom (outside s))
                                          (length (reviews (globals s)))) in
          (beginAnalysis selectedReview ;;
           detach (settleAnalysis selectedReview)) s
      end.

End Application.

(** ** A reference host

    Enough of the string primitives to run the model: upper-casing of
    ASCII letters (other bytes are kept), fixed-point printing of a
    number, and a compact JSON printer for the data the page sends. *)

Definition decimal_of_Z (n : Z) : string :=
  NilZero.string_of_uint (N.to_uint (Z.to_N n)).

Fixpoint zeros (n : nat) : string :=
  match n with
  | O => EmptyString
  | S n' => String "0" (zeros n')
  end.

(** The digits of a non-negative [q] with [d] decimals, rounding half up. *)
Definition fixed_digits (q : Q) (d : nat) : string :=
  let n := Qfloor (q * inject_Z (10 ^ Z.of_nat d) + (1 # 2)) in
  let digits := decimal_of_Z n in
  if (d =? 0)%nat then digits
  else
    let padded := zeros (S d - String.length digits) ++ digits in
    let whole := (String.length padded - d)%nat in
    substring 0 whole padded ++ "." ++ substring whole d padded.

Definition ref_toFixed (x : number) (d : nat) : string :=
  match x with
  | NaN => "NaN"
  | PosInfinity => "Infinity"
  | NegInfinity => "-Infinity"
  | Finite q =>
      if Qle_bool 0 q then fixed_digits q d else "-" ++ fixed_digits (- q) d
  end.

(** Drop the zeros that end a decimal expansion. *)
Fixpoint strip_zeros (s : string) : string :=
  match s with
  | EmptyString => EmptyString
  | String c rest =>
      match strip_zeros rest with
      | EmptyString => if (nat_of_ascii c =? 48)%nat then EmptyString else String c EmptyString
      | kept => String c kept
      end
  end.

Fixpoint escape (s : string) : string :=
  match s with
  | EmptyString => EmptyString
  | String c rest =>
      if ((nat_of_ascii c =? 34) || (nat_of_ascii c =? 92))%nat
      then String (ascii_of_nat 92) (String c (escape rest))
      else String c (escape rest)
  end.

Definition json_string (s : string) : string := quote ++ escape s ++ quote.

Fixpoint ref_stringify (v : value) : string :=
  match v with
  | VUndefined => "undefined"
  | VNull => "null"
  | VBoolean b => if b then "true" else "false"
  | VNumber (Finite q) =>
      if Qeq_bool q (inject_Z (Qfloor q)) then ref_toFixed (Finite q) 0
      else strip_zeros (ref_toFixed (Finite q) 16)
  | VNumber _ => "null"
  | VString s => json_string s
  | VArray items =>
      "[" ++ String.concat ","
               (map (fun x => match x with
                              | VUndefined => "null"
                              | _ => ref_stringify x
                              end) items) ++ "]"
  | VObject props =>
      "{" ++ String.concat ","
               (flat_map (fun kv => match kv with
                                    | (_, VUndefined) => []
                                    | (k, x) => [json_string k ++ ":" ++ ref_stringify x]
                                    end) props) ++ "}"
  end.

#[export] Instance ref_host : Host := {|
  toUpperCase := asciiUpper;
  toUpperCase_ascii := fun s _ => eq_refl;
  toFixed := ref_toFixed;
  JSON_stringify := ref_stringify
|}.

(** The reference text primitives: trimming of ASCII white space, and a
    printer for values that prints a string as it is. *)

Definition isSpace (c : ascii) : bool :=
  let n := nat_of_ascii c in
  ((n =? 32) || ((9 <=? n) && (n <=? 13)))%nat.

Fixpoint trimStart (s : string) : string :=
  match s with
  | EmptyString => EmptyString
  | String c rest => if isSpace c then trimStart rest else s
  end.

Fixpoint trimEnd (s : string) : string :=
  match s with
  | EmptyString => EmptyString
  | String c rest =>
      match trimEnd rest with
      | EmptyString => if isSpace c then EmptyString else String c EmptyString
      | kept => String c kept
      end
  end.

Definition ref_trim (s : string) : string := trimEnd (trimStart s).

Fixpoint ref_toString (v : value) : string :=
  match v with
  | VUndefined => "undefined"
  | VNull => "null"
  | VBoolean b => if b then "true" else "false"
  | VNumber NaN => "NaN"
  | VNumber PosInfinity => "Infinity"
  | VNumber NegInfinity => "-Infinity"
  | VNumber (Finite q) => ref_stringify (VNumber (Finite q))
  | VString s => s
  | VArray items =>
      String.concat ","
        (map (fun x => match x with
                       | VUndefined | VNull => EmptyString
                       | _ => ref_toString x
                       end) items)
  | VObject _ => "[object Object]"
  end.

#[export] Instance ref_text : TextHost := {|
  trim := ref_trim;
  toString := ref_toString;
  toString_string := fun s => eq_refl
|}.

(** ** The labels and tiers the specification speaks of *)

(** A label as the classifier's contract admits it: a string, [null],
    or no argument at all. *)
Inductive LabelInput : Type :=
| Absent
| NullLabel
| Text (s : string).

Definition label_value (l : LabelInput) : value :=
  match l with
  | Absent => VUndefined
  | NullLabel => VNull
  | Text s => VString s
  end.

(** The upper-cased label: the empty string stands for a missing one. *)
Definition uppercased {host : Host} (l : LabelInput) : string :=
  match l with
  | Text s => toUpperCase s
  | _ => EmptyString
  end.

(** The order of the action tiers:
    [OFFER_COUPON < REQUEST_FEEDBACK < ASK_REFERRAL]. *)
Definition tier (code : string) : option nat :=
  if code =? "OFFER_COUPON" then Some 0%nat
  else if code =? "REQUEST_FEEDBACK" then Some 1%nat
  else if code =? "ASK_REFERRAL" then Some 2%nat
  else None.

(** The same world with another network behind it. *)
Definition with_network (net : Request -> FetchOutcome) (w : World) : World :=
  {| page := page w; client := client w; console := console w;
     sent := sent w; network := net |}.

(** The inference result's first item, [result[0][0]], and its fields. *)
Definition sentimentDataOf (result : value) : value :=
  arr_item (arr_item result 0) 0.

(** ** Sample inputs *)

Definition sample_page : Page := {|
  reviewText_textContent := "Great product";
  sentimentResult_classList := ["sentiment-result"];
  sentimentResult_innerHTML := EmptyString;
  actionResult := {| ad_textContent := EmptyString; ad_backgroundColor := EmptyString;
                     ad_color := EmptyString; ad_border := EmptyString;
                     ad_classList := [] |}
|}.

Definition sample_client : Client := {|
  userAgent := "Mozilla/5.0";
  platform := "Linux x86_64";
  language := "en-US";
  screenSize := "1920x1080";
  timestamp := "2025-01-01T00:00:00.000Z"
|}.

(** A world whose network is down, and one whose endpoint answers 500. *)
Definition offline_world : World := {|
  page := sample_page; client := sample_client; console := []; sent := [];
  network := fun _ => Rejected (TypeError "Failed to fetch")
|}.

Definition failing_world : World := {|
  page := sample_page; client := sample_client; console := []; sent := [];
  network := fun _ => Response false "Internal Server Error"
|}.

(** An inference result whose score came back as text. *)
Definition text_score_result : value :=
  VArray [VArray [VObject [("label", VString "positive"); ("score", VString "0.99")]]].

(** A page that has just loaded, with two reviews, a model that calls
    everything positive, a logging endpoint that is down and a saved
    token. *)
Definition sample_controls : Controls := {|
  errorElement_textContent := EmptyString;
  errorElement_display := "none";
  loadingElement_display := "none";
  analyzeBtn_disabled := false;
  apiTokenInput_value := "  hf_abc  ";
  statusElement_textContent := Some EmptyString
|}.

Definition sample_rows : list (list (string * value)) :=
  [[("text", VString "Great product"); ("stars", VString "5")];
   [("text", VString "   ")];
   [("stars", VString "1")];
   [("text", VString "Broke after a week")]].

Definition confident_pipeline : Pipeline :=
  fun _ => Returned (VArray [VObject [("label", VString "POSITIVE");
                                      ("score", VNumber (Finite 0.98))]]).

Definition sample_outside : Outside := {|
  mathRandom := Binary64.three_quarters;
  tsvFetch := TsvResponse true (Returned "text");
  papaParse := fun _ => ParseComplete sample_rows;
  loadModel := Returned confident_pipeline
|}.

Definition fresh_app : App := {|
  world := offline_world;
  globals := {| reviews := []; apiToken := EmptyString; sentimentPipeline := None |};
  controls := sample_controls;
  localStorage := fun _ => None;
  journal := [];
  outside := sample_outside
|}.

(** The same page once the reviews and the model are there. *)
Definition ready_app : App := {|
  world := offline_world;
  globals := {| reviews := [VString "Great product"; VString "Broke after a week"];
                apiToken := EmptyString;
                sentimentPipeline := Some confident_pipeline |};
  controls := sample_controls;
  localStorage := fun _ => None;
  journal := [];
  outside := sample_outside
|}.

(** The review a click picks (lines 165-166), the world once it is on
    the page and the previous result is cleared (lines 168-175), and
    the whole state at that moment: the state the page is in from the
    click until the analysis settles. *)
Definition pickedReview (s : App) : value :=
  arr_at (reviews (globals s))
         (Binary64.random_index (mathRandom (outside s))
                                (length (reviews (globals s)))).

Definition prepared_world {text : TextHost} (s : App) : World :=
  {| page :=
       {| reviewText_textContent := textContent_of (pickedReview s);
          sentimentResult_classList := ["sentiment-result"];
          sentimentResult_innerHTML := EmptyString;
          actionResult := actionResult (page (world s)) |};
     client := client (world s);
     console := console (world s);
     sent := sent (world s);
     network := network (world s) |}.


(** Three reviews and the value of [Math.random()] whose product with 3
    rounds up to 2. *)
Definition three_reviews_app : App := {|
  world := offline_world;
  globals := {| reviews := [VString "first"; VString "second"; VString "third"];
                apiToken := EmptyString;
                sentimentPipeline := Some confident_pipeline |};
  controls := sample_controls;
  localStorage := fun _ => None;
  journal := [];
  outside := {| mathRandom := Binary64.two_thirds_below;
                tsvFetch := TsvResponse true (Returned "text");
                papaParse := fun _ => ParseComplete sample_rows;
                loadModel := Returned confident_pipeline |}
|}.

(** The ready page with a model that gives up, and a page opened again
    after the sample token was saved. *)
Definition broken_pipeline : Pipeline :=
  fun _ => Threw (Error "Model session was lost").

Definition broken_app : App := {|
  world := offline_world;
  globals := {| reviews := [VString "Great product"; VString "Broke after a week"];
                apiToken := EmptyString;
                sentimentPipeline := Some broken_pipeline |};
  controls := sample_controls;
  localStorage := fun _ => None;
  journal := [];
  outside := sample_outside
|}.

Definition reopened_app : App := {|
  world := offline_world;
  globals := {| reviews := []; apiToken := EmptyString; sentimentPipeline := None |};
  controls := {| errorElement_textContent := EmptyString;
                 errorElement_display := "none";
                 loadingElement_display := "none";
                 analyzeBtn_disabled := false;
                 apiTokenInput_value := EmptyString;
                 statusElement_textContent := Some EmptyString |};
  localStorage := localStorage (snd (saveApiToken fresh_app));
  journal := [];
  outside := sample_outside
|}.

(** * Properties *)

(** ** Comparisons on finite numbers *)

Lemma num_leb_finite (x y : Q) : num_leb (Finite x) (Finite y) = true <-> x <= y.
Proof. simpl. apply Qle_bool_iff. Qed.

Lemma num_ltb_finite (x y : Q) : num_ltb (Finite x) (Finite y) = true <-> x < y.
Proof.
  simpl. rewrite negb_true_iff. split.
  - intros H. apply Qnot_le_lt. intros Hle.
    apply Qle_bool_iff in Hle. congruence.
  - intros H. destruct (Qle_bool y x) eqn:E; [|reflexivity].
    apply Qle_bool_iff in E. lra.
Qed.

Lemma num_leb_finite_false (x y : Q) : num_leb (Finite x) (Finite y) = false <-> y < x.
Proof.
  rewrite <- not_true_iff_false, num_leb_finite. split; intros H; lra.
Qed.

Lemma num_ltb_finite_false (x y : Q) : num_ltb (Finite x) (Finite y) = false <-> y <= x.
Proof.
  rewrite <- not_true_iff_false, num_ltb_finite. split; intros H; lra.
Qed.

(** The thresholds on a finite score, branch by branch. *)
Lemma applyThresholds_low (ns : Q) : ns <= 0.4 -> applyThresholds (Finite ns) = OFFER_COUPON.
Proof.
  intros H. unfold applyThresholds, lit_0_4.
  apply num_leb_finite in H. rewrite H. reflexivity.
Qed.

Lemma applyThresholds_mid (ns : Q) :
  0.4 < ns -> ns < 0.7 -> applyThresholds (Finite ns) = REQUEST_FEEDBACK.
Proof.
  intros Hlo Hhi. unfold applyThresholds, lit_0_4, lit_0_7.
  apply num_leb_finite_false in Hlo. apply num_ltb_finite in Hhi.
  rewrite Hlo, Hhi. reflexivity.
Qed.

Lemma applyThresholds_high (ns : Q) : 0.7 <= ns -> applyThresholds (Finite ns) = ASK_REFERRAL.
Proof.
  intros H. unfold applyThresholds, lit_0_4, lit_0_7.
  assert (Hlo : 0.4 < ns) by lra.
  apply num_leb_finite_false in Hlo. apply num_ltb_finite_false in H.
  rewrite Hlo, H. reflexivity.
Qed.

(** Scores that are equal as rationals take the same branch. *)
Lemma applyThresholds_Qeq (x y : Q) :
  x == y -> applyThresholds (Finite x) = applyThresholds (Finite y).
Proof.
  intros E. unfold applyThresholds, lit_0_4, lit_0_7. simpl.
  rewrite (Qleb_comp x y E 0.4 0.4 (Qeq_refl _)).
  rewrite (Qleb_comp 0.7 0.7 (Qeq_refl _) x y E).
  reflexivity.
Qed.

Lemma applyThresholds_cases (ns : number) :
  applyThresholds ns = OFFER_COUPON \/
  applyThresholds ns = REQUEST_FEEDBACK \/
  applyThresholds ns = ASK_REFERRAL.
Proof.
  unfold applyThresholds.
  destruct (num_leb ns lit_0_4); [now left|].
  destruct (num_ltb ns lit_0_7); [right; now left | right; now right].
Qed.

Section ClassifierFacts.
Context {host : Host}.

Lemma toUpperCase_POSITIVE : toUpperCase "POSITIVE" = "POSITIVE".
Proof. rewrite toUpperCase_ascii; reflexivity. Qed.

Lemma toUpperCase_NEGATIVE : toUpperCase "NEGATIVE" = "NEGATIVE".
Proof. rewrite toUpperCase_ascii; reflexivity. Qed.

Lemma toUpperCase_empty : toUpperCase EmptyString = EmptyString.
Proof. rewrite toUpperCase_ascii; reflexivity. Qed.

(** Line 51 on an admitted label never throws. *)
Lemma upperLabel_label (l : LabelInput) :
  upperLabel (label_value l) = Returned (uppercased l).
Proof.
  destruct l as [| |s]; try reflexivity.
  unfold upperLabel. simpl.
  destruct (String.eqb_spec s EmptyString) as [->|Hne]; simpl.
  - now rewrite toUpperCase_empty.
  - reflexivity.
Qed.

(** The classifier is the thresholds applied to the normalized score. *)
Lemma determineBusinessAction_label (confidence : number) (l : LabelInput) :
  determineBusinessAction confidence (label_value l) =
  Returned (applyThresholds (normalizedScore confidence (uppercased l))).
Proof.
  unfold determineBusinessAction. now rewrite upperLabel_label.
Qed.

Lemma normalizedScore_POSITIVE (confidence : number) :
  normalizedScore confidence "POSITIVE" = confidence.
Proof. reflexivity. Qed.

Lemma normalizedScore_NEGATIVE (confidence : number) :
  normalizedScore confidence "NEGATIVE" = num_sub lit_1_0 confidence.
Proof. reflexivity. Qed.

Lemma normalizedScore_other (confidence : number) (upper : string) :
  upper <> "POSITIVE" -> upper <> "NEGATIVE" ->
  normalizedScore confidence upper = lit_0_5.
Proof.
  intros Hp Hn. unfold normalizedScore.
  destruct (String.eqb_spec upper "POSITIVE"); [contradiction|].
  destruct (String.eqb_spec upper "NEGATIVE"); [contradiction|].
  reflexivity.
Qed.


End ClassifierFacts.

(** ** The classifier's contract *)

Section ClassifierContract.
Context {host : Host}.


(** C3. For every confidence and every label whose upper-casing is
    neither POSITIVE nor NEGATIVE, the empty string and a null or absent
    label among them, the classifier uses the neutral score 0.5 and
    returns REQUEST_FEEDBACK; it returns, it does not throw. *)
Theorem C3_unknown_label_is_neutral (confidence : number) (l : LabelInput) :
  (uppercased l <> "POSITIVE" /\ uppercased l <> "NEGATIVE") \/
  l = Absent \/ l = NullLabel \/ l = Text EmptyString ->
  normalizedScore confidence (uppercased l) = Finite 0.5 /\
  determineBusinessAction confidence (label_value l) =
  Returned {| actionCode := "REQUEST_FEEDBACK";
              uiMessage := "📝 Thank you! Could you tell us how we can improve?";
              uiColor := "#6b7280" |}.
Proof.
  intros H.
  assert (Hu : uppercased l <> "POSITIVE" /\ uppercased l <> "NEGATIVE").
  { destruct H as [H | [-> | [-> | ->]]]; [exact H | | |];
      simpl; rewrite ?toUpperCase_empty; split; discriminate. }
  destruct Hu as [Hp Hn].
  rewrite determineBusinessAction_label.
  rewrite (normalizedScore_other confidence _ Hp Hn).
  split; reflexivity.
Qed.

(** C4. Monotonicity: for the label POSITIVE and confidences
    [c1 <= c2], the tier of the action for [c1] is at most the tier of
    the action for [c2], in the order
    OFFER_COUPON < REQUEST_FEEDBACK < ASK_REFERRAL. *)
Theorem C4_monotone_in_confidence (c1 c2 : Q) :
  c1 <= c2 ->
  exists (a1 a2 : BusinessAction) (t1 t2 : nat),
    determineBusinessAction (Finite c1) (VString "POSITIVE") = Returned a1 /\
    determineBusinessAction (Finite c2) (VString "POSITIVE") = Returned a2 /\
    tier (actionCode a1) = Some t1 /\
    tier (actionCode a2) = Some t2 /\
    (t1 <= t2)%nat.
Proof.
  intros Hle.
  change (VString "POSITIVE") with (label_value (Text "POSITIVE")).
  rewrite !determineBusinessAction_label.
  simpl uppercased. rewrite toUpperCase_POSITIVE, !normalizedScore_POSITIVE.
  destruct (Qlt_le_dec 0.4 c1) as [Hlo1|Hlo1].
  - destruct (Qlt_le_dec c1 0.7) as [Hhi1|Hhi1].
    + destruct (Qlt_le_dec c2 0.7) as [Hhi2|Hhi2].
      * exists REQUEST_FEEDBACK, REQUEST_FEEDBACK, 1%nat, 1%nat.
        rewrite !applyThresholds_mid by lra. repeat split; lia.
      * exists REQUEST_FEEDBACK, ASK_REFERRAL, 1%nat, 2%nat.
        rewrite applyThresholds_mid, applyThresholds_high by lra.
        repeat split; lia.
    + exists ASK_REFERRAL, ASK_REFERRAL, 2%nat, 2%nat.
      rewrite !applyThresholds_high by lra. repeat split; lia.
  - destruct (applyThresholds_cases (Finite c2)) as [E | [E | E]]; rewrite E.
    + exists OFFER_COUPON, OFFER_COUPON, 0%nat, 0%nat.
      rewrite applyThresholds_low by lra. repeat split; lia.
    + exists OFFER_COUPON, REQUEST_FEEDBACK, 0%nat, 1%nat.
      rewrite applyThresholds_low by lra. repeat split; lia.
    + exists OFFER_COUPON, ASK_REFERRAL, 0%nat, 2%nat.
      rewrite applyThresholds_low by lra. repeat split; lia.
Qed.

(** C5. Totality: for every number given as confidence and every string,
    null or absent label, the classifier returns a record whose
    actionCode is OFFER_COUPON, REQUEST_FEEDBACK or ASK_REFERRAL; it
    never throws. *)
Theorem C5_total (confidence : number) (l : LabelInput) :
  exists a : BusinessAction,
    determineBusinessAction confidence (label_value l) = Returned a /\
    (actionCode a = "OFFER_COUPON" \/
     actionCode a = "REQUEST_FEEDBACK" \/
     actionCode a = "ASK_REFERRAL").
Proof.
  rewrite determineBusinessAction_label.
  eexists. split; [reflexivity|].
  destruct (applyThresholds_cases (normalizedScore confidence (uppercased l)))
    as [E | [E | E]]; rewrite E; simpl; auto.
Qed.

(** C10. Label duality: for every real [c], the classifier answers
    NEGATIVE with confidence [c] as it answers POSITIVE with confidence
    [1 - c], the subtraction being exact. *)
Theorem C10_label_duality (c : Q) :
  determineBusinessAction (Finite c) (VString "NEGATIVE") =
  determineBusinessAction (Finite (1 - c)) (VString "POSITIVE") /\
  forall d : Q, d == 1 - c ->
    determineBusinessAction (Finite c) (VString "NEGATIVE") =
    determineBusinessAction (Finite d) (VString "POSITIVE").
Proof.
  change (VString "POSITIVE") with (label_value (Text "POSITIVE")).
  change (VString "NEGATIVE") with (label_value (Text "NEGATIVE")).
  split; [|intros d Hd]; rewrite !determineBusinessAction_label;
    simpl uppercased; rewrite toUpperCase_POSITIVE, toUpperCase_NEGATIVE;
    rewrite normalizedScore_POSITIVE, normalizedScore_NEGATIVE; simpl num_sub.
  - reflexivity.
  - f_equal. apply applyThresholds_Qeq. now symmetry.
Qed.

End ClassifierContract.

(** ** The contract over binary64 *)

Module Binary64Contract.
Import PrimFloat.
#[local] Set Warnings "-inexact-float".

Section Contract.
Context {host : Host}.

(** On a string, null or absent label the binary64 classifier is the
    thresholds applied to the normalized score. *)
Lemma determineBusinessAction_label64 (confidence : float) (l : LabelInput) :
  Binary64.determineBusinessAction confidence (label_value l) =
  Returned (Binary64.applyThresholds
              (Binary64.normalizedScore confidence (uppercased l))).
Proof.
  unfold Binary64.determineBusinessAction. now rewrite upperLabel_label.
Qed.

(** C2. For every confidence [c], the normalized score the classifier
    thresholds is [c] when the upper-cased label is POSITIVE, the
    binary64 difference [1.0 - c] (the IEEE 754 subtraction of the
    source, rounded to nearest) when it is NEGATIVE, and 0.5 for any
    other label, whatever [c]. *)
Theorem C2_normalized_score (confidence : float) (l : LabelInput) :
  Binary64.determineBusinessAction confidence (label_value l) =
    Returned (Binary64.applyThresholds
                (Binary64.normalizedScore confidence (uppercased l))) /\
  (uppercased l = "POSITIVE" ->
   Binary64.normalizedScore confidence (uppercased l) = confidence) /\
  (uppercased l = "NEGATIVE" ->
   Binary64.normalizedScore confidence (uppercased l) = (1.0 - confidence)%float /\
   FloatOps.Prim2SF (Binary64.normalizedScore confidence (uppercased l)) =
     FloatAxioms.SF64sub (FloatOps.Prim2SF 1.0) (FloatOps.Prim2SF confidence)) /\
  (uppercased l <> "POSITIVE" -> uppercased l <> "NEGATIVE" ->
   Binary64.normalizedScore confidence (uppercased l) = 0.5%float).
Proof.
  split; [apply determineBusinessAction_label64|].
  split; [|split].
  - intros ->. reflexivity.
  - intros ->. split; [reflexivity|].
    change (Binary64.normalizedScore confidence "NEGATIVE")
      with (1.0 - confidence)%float.
    apply FloatAxioms.sub_spec.
  - intros Hp Hn. unfold Binary64.normalizedScore.
    destruct (String.eqb_spec (uppercased l) "POSITIVE"); [contradiction|].
    destruct (String.eqb_spec (uppercased l) "NEGATIVE"); [contradiction|].
    reflexivity.
Qed.

(** C6. No clamping: for any confidence, in [0, 1] or not, the
    normalized score is the confidence itself under POSITIVE and the
    binary64 difference [1.0 - c] under NEGATIVE, and the thresholds are
    applied to it as it is; confidence 2.0 under POSITIVE gives
    ASK_REFERRAL and confidence -1.0 gives OFFER_COUPON. *)
Theorem C6_no_clamping (c : float) :
  Binary64.normalizedScore c (uppercased (Text "POSITIVE")) = c /\
  Binary64.normalizedScore c (uppercased (Text "NEGATIVE")) = (1.0 - c)%float /\
  Binary64.determineBusinessAction c (VString "POSITIVE") =
    Returned (Binary64.applyThresholds c) /\
  Binary64.determineBusinessAction c (VString "NEGATIVE") =
    Returned (Binary64.applyThresholds (1.0 - c)%float) /\
  Binary64.determineBusinessAction 2.0 (VString "POSITIVE") = Returned ASK_REFERRAL /\
  Binary64.determineBusinessAction (-1.0) (VString "POSITIVE") = Returned OFFER_COUPON /\
  Binary64.determineBusinessAction 2.0 (VString "NEGATIVE") = Returned OFFER_COUPON /\
  Binary64.determineBusinessAction (-1.0) (VString "NEGATIVE") = Returned ASK_REFERRAL.
Proof.
  change (VString "POSITIVE") with (label_value (Text "POSITIVE")).
  change (VString "NEGATIVE") with (label_value (Text "NEGATIVE")).
  rewrite !determineBusinessAction_label64.
  simpl uppercased. rewrite toUpperCase_POSITIVE, toUpperCase_NEGATIVE.
  repeat split.
Qed.

End Contract.

Lemma C2_normalized_score_witness :
  Binary64.normalizedScore 0.9 (uppercased (Text "positive")) = 0.9%float /\
  Binary64.normalizedScore 0.30000000000000004 (uppercased (Text "negative"))
    = 0.7%float /\
  Binary64.normalizedScore 0.9 (uppercased (Text "mixed")) = 0.5%float.
Proof.
  split; [|split].
  - destruct (C2_normalized_score (host := ref_host) 0.9 (Text "positive"))
      as (_ & Hpos & _).
    apply Hpos. reflexivity.
  - destruct (C2_normalized_score (host := ref_host) 0.30000000000000004 (Text "negative"))
      as (_ & _ & Hneg & _).
    destruct (Hneg eq_refl) as [Hdiff _]. rewrite Hdiff. reflexivity.
  - destruct (C2_normalized_score (host := ref_host) 0.9 (Text "mixed"))
      as (_ & _ & _ & Hother).
    apply Hother; vm_compute; discriminate.
Defined.

(** Where rounding decides: the difference is the double of 0.7, and
    the upper branch is taken. *)
Example negative_at_the_upper_threshold :
  Binary64.determineBusinessAction 0.30000000000000004 (VString "NEGATIVE")
    = Returned ASK_REFERRAL /\
  Binary64.determineBusinessAction 0.3000000000000001 (VString "NEGATIVE")
    = Returned ASK_REFERRAL /\
  Binary64.determineBusinessAction 0.3 (VString "NEGATIVE")
    = Returned ASK_REFERRAL /\
  Binary64.determineBusinessAction 0.6 (VString "NEGATIVE")
    = Returned OFFER_COUPON.
Proof. repeat split. Qed.

(** The boundary scenarios of the specification, in binary64. *)
Example scenarios_binary64 :
  Binary64.determineBusinessAction 0.9 (VString "POSITIVE") = Returned ASK_REFERRAL /\
  Binary64.determineBusinessAction 0.9 (VString "NEGATIVE") = Returned OFFER_COUPON /\
  Binary64.determineBusinessAction 0.4 (VString "POSITIVE") = Returned OFFER_COUPON /\
  Binary64.determineBusinessAction 0.7 (VString "POSITIVE") = Returned ASK_REFERRAL /\
  Binary64.determineBusinessAction 0.69999 (VString "POSITIVE") = Returned REQUEST_FEEDBACK /\
  Binary64.determineBusinessAction 0.5 (VString "unknown") = Returned REQUEST_FEEDBACK.
Proof. repeat split. Qed.

End Binary64Contract.

(** ** The callers *)

Lemma typeof_not_number (v : value) :
  typeof v <> "number" -> forall n, v <> VNumber n.
Proof. intros H n ->. now apply H. Qed.

Lemma typeof_not_string (v : value) :
  typeof v <> "string" -> forall s, v <> VString s.
Proof. intros H s ->. now apply H. Qed.

Section CallerFacts.
Context {host : Host}.

(** A string label never makes the classifier throw. *)
Lemma determineBusinessAction_string (confidence : number) (s : string) :
  determineBusinessAction confidence (VString s) =
  Returned (applyThresholds (normalizedScore confidence (toUpperCase s))).
Proof. apply (determineBusinessAction_label confidence (Text s)). Qed.

(** With the fallback confidence every label lands in the middle tier. *)
Lemma fallback_confidence_is_neutral (upper : string) :
  applyThresholds (normalizedScore lit_0_5 upper) = REQUEST_FEEDBACK.
Proof.
  unfold normalizedScore.
  destruct (upper =? "POSITIVE"); [reflexivity|].
  destruct (upper =? "NEGATIVE"); reflexivity.
Qed.

(** A score field that is not a number leaves the default in place. *)
Lemma parseResult_score_fallback (result : value) :
  typeof (get_prop (sentimentDataOf result) "score") <> "number" ->
  score (parseResult result) = lit_0_5 /\ sentiment (parseResult result) = "neutral".
Proof.
  intros H. unfold parseResult. fold (sentimentDataOf result).
  destruct (isArray result && (0 <? arr_length result)%nat
            && isArray (arr_item result 0)
            && (0 <? arr_length (arr_item result 0))%nat); [|now split].
  destruct (truthy (sentimentDataOf result)
            && (typeof (sentimentDataOf result) =? "object")); [|now split].
  destruct (get_prop (sentimentDataOf result) "score") as [| | | n | | |] eqn:E;
    try (cbn [score sentiment]; rewrite !andb_false_r; now split).
  exfalso. now apply H.
Qed.

(** A label field that is not a string leaves the default in place. *)
Lemma parseResult_label_fallback (result : value) :
  typeof (get_prop (sentimentDataOf result) "label") <> "string" ->
  label (parseResult result) = "NEUTRAL".
Proof.
  intros H. unfold parseResult. fold (sentimentDataOf result).
  destruct (isArray result && (0 <? arr_length result)%nat
            && isArray (arr_item result 0)
            && (0 <? arr_length (arr_item result 0))%nat); [|reflexivity].
  destruct (truthy (sentimentDataOf result)
            && (typeof (sentimentDataOf result) =? "object")); [|reflexivity].
  destruct (get_prop (sentimentDataOf result) "label") as [| | | | s | |] eqn:E;
    try reflexivity.
  exfalso. now apply H.
Qed.

(** What [render] leaves on the page and on the wire, whatever the
    network does: the action shown is the classifier's decision. *)
Lemma render_run (l : Locals) (w : World) :
  let decision := applyThresholds (normalizedScore (score l) (toUpperCase (label l))) in
  let run := render l w in
  fst run = Returned tt /\
  client (snd run) = client w /\
  network (snd run) = network w /\
  reviewText_textContent (page (snd run)) = reviewText_textContent (page w) /\
  sentimentResult_classList (page (snd run)) =
    classList_add (sentiment l) (sentimentResult_classList (page w)) /\
  ad_textContent (actionResult (page (snd run))) = uiMessage decision /\
  ad_color (actionResult (page (snd run))) = uiColor decision /\
  ad_backgroundColor (actionResult (page (snd run))) = uiColor decision ++ "20" /\
  ad_border (actionResult (page (snd run))) = "2px solid " ++ uiColor decision /\
  exists request,
    sent (snd run) = (sent w ++ [request])%list /\
    req_body request =
      [("review", reviewText_textContent (page w));
       ("sentiment", sentimentStrOf l);
       ("action", actionCode decision);
       ("meta", JSON_stringify (VObject
          [("userAgent", VString (userAgent (client w)));
           ("platform", VString (platform (client w)));
           ("language", VString (language (client w)));
           ("screen", VString (screenSize (client w)));
           ("timestamp", VString (timestamp (client w)))]))].
Proof.
  cbv zeta. unfold render, bind, update_page, lift, fire_and_forget.
  rewrite determineBusinessAction_string. cbn [fst snd page client network].
  unfold logToGoogleSheets, try_catch, bind, fetch, console_warn, ret.
  cbn [page client network sent console].
  match goal with |- context [network w ?r] => destruct (network w r) as [[|] st | reason] end;
    cbn; repeat split; eexists; split; reflexivity.
Qed.

End CallerFacts.

Section CallerContract.
Context {host : Host}.

(** C7. A score that is not a number is treated as absent: whenever the
    score field of the inference result is not of type number, the
    confidence handed to the classifier is 0.5 (and a label field that
    is not a string is replaced by NEUTRAL), so the classifier runs on
    the fallback values and the page shows its decision for them. *)
Theorem C7_fallback_values (result : value) :
  typeof (get_prop (sentimentDataOf result) "score") <> "number" ->
  score (parseResult result) = Finite 0.5 /\
  (typeof (get_prop (sentimentDataOf result) "label") <> "string" ->
   label (parseResult result) = "NEUTRAL") /\
  forall w : World,
    exists decision : BusinessAction,
      determineBusinessAction (Finite 0.5) (VString (label (parseResult result)))
        = Returned decision /\
      actionCode decision = "REQUEST_FEEDBACK" /\
      fst (displaySentiment result w) = Returned tt /\
      ad_textContent (actionResult (page (snd (displaySentiment result w))))
        = uiMessage decision /\
      ad_color (actionResult (page (snd (displaySentiment result w))))
        = uiColor decision.
Proof.
  intros Hscore.
  destruct (parseResult_score_fallback result Hscore) as [Hs _].
  split; [exact Hs|].
  split; [apply parseResult_label_fallback|].
  intros w. exists REQUEST_FEEDBACK.
  rewrite determineBusinessAction_string.
  fold lit_0_5. rewrite fallback_confidence_is_neutral.
  split; [reflexivity|]. split; [reflexivity|].
  unfold displaySentiment.
  destruct (render_run (parseResult result) w)
    as (Hret & _ & _ & _ & _ & Htext & Hcolor & _).
  rewrite Hs, fallback_confidence_is_neutral in Htext, Hcolor.
  now repeat split.
Qed.

(** C9. Logging failures are not fatal: whatever the POST ends in, an
    ok response, a response that is not ok or a rejection, the logger
    returns; a failure leaves one console warning and nothing else, and
    neither the page nor the decision that was rendered and sent depends
    on what the network answers. *)
Theorem C9_logging_failures_non_fatal
  (review sentimentStr code : string) (meta : value) (w : World) :
  let request :=
    {| req_url := GAS_WEB_APP_URL; req_method := "POST";
       req_body := [("review", review); ("sentiment", sentimentStr);
                    ("action", code); ("meta", JSON_stringify meta)] |} in
  let run := logToGoogleSheets review sentimentStr code meta w in
  fst run = Returned tt /\
  page (snd run) = page w /\
  sent (snd run) = (sent w ++ [request])%list /\
  console (snd run) =
    (console w ++
     match network w request with
     | Response true _ => []
     | Response false statusText =>
         [{| warn_message := "Failed to log to Google Sheets:";
             warn_detail := DetailString statusText |}]
     | Rejected reason =>
         [{| warn_message := "Error logging to Google Sheets:";
             warn_detail := DetailError reason |}]
     end)%list /\
  forall (result : value) (net : Request -> FetchOutcome),
    fst (displaySentiment result (with_network net w)) = Returned tt /\
    page (snd (displaySentiment result (with_network net w)))
      = page (snd (displaySentiment result w)) /\
    sent (snd (displaySentiment result (with_network net w)))
      = sent (snd (displaySentiment result w)).
Proof.
  cbv zeta. unfold logToGoogleSheets, try_catch, bind, fetch, console_warn, ret.
  cbn [page client network sent console].
  split; [|split; [|split; [|split]]].
  - match goal with |- context [network w ?r] =>
      destruct (network w r) as [[|] st | reason] end; reflexivity.
  - match goal with |- context [network w ?r] =>
      destruct (network w r) as [[|] st | reason] end; reflexivity.
  - match goal with |- context [network w ?r] =>
      destruct (network w r) as [[|] st | reason] end; reflexivity.
  - match goal with |- context [network w ?r] =>
      destruct (network w r) as [[|] st | reason] end; cbn;
      rewrite ?app_nil_r; reflexivity.
  - intros result net. unfold displaySentiment.
    set (l := parseResult result).
    unfold render, bind, update_page, lift, fire_and_forget.
    rewrite determineBusinessAction_string. cbn [fst snd page client network].
    unfold logToGoogleSheets, try_catch, bind, fetch, console_warn, ret, with_network.
    cbn [page client network sent console].
    repeat match goal with |- context [network w ?r] =>
      destruct (network w r) as [[|] ? | ?] end;
    repeat match goal with |- context [net ?r] =>
      destruct (net r) as [[|] ? | ?] end;
    cbn; repeat split.
Qed.

End CallerContract.

(** ** The contract at concrete inputs, on the reference host *)


Lemma C3_unknown_label_is_neutral_witness :
  (normalizedScore (Finite 0.99) (uppercased (Text "neutral")) = Finite 0.5 /\
   determineBusinessAction (Finite 0.99) (VString "neutral") = Returned REQUEST_FEEDBACK) /\
  (normalizedScore (Finite 0.01) (uppercased NullLabel) = Finite 0.5 /\
   determineBusinessAction (Finite 0.01) VNull = Returned REQUEST_FEEDBACK).
Proof.
  split.
  - apply (C3_unknown_label_is_neutral (host := ref_host) (Finite 0.99) (Text "neutral")).
    left. split; vm_compute; discriminate.
  - apply (C3_unknown_label_is_neutral (host := ref_host) (Finite 0.01) NullLabel).
    right. right. left. reflexivity.
Defined.

Lemma C4_monotone_in_confidence_witness :
  0.3 <= 0.8 /\
  exists (a1 a2 : BusinessAction) (t1 t2 : nat),
    determineBusinessAction (Finite 0.3) (VString "POSITIVE") = Returned a1 /\
    determineBusinessAction (Finite 0.8) (VString "POSITIVE") = Returned a2 /\
    tier (actionCode a1) = Some t1 /\
    tier (actionCode a2) = Some t2 /\
    (t1 <= t2)%nat.
Proof.
  assert (H : 0.3 <= 0.8) by (unfold Qle; simpl; lia).
  split; [exact H|].
  exact (C4_monotone_in_confidence (host := ref_host) 0.3 0.8 H).
Defined.

Lemma C7_fallback_values_witness :
  typeof (get_prop (sentimentDataOf text_score_result) "score") <> "number" /\
  score (parseResult text_score_result) = Finite 0.5 /\
  ad_textContent (actionResult (page (snd (displaySentiment text_score_result offline_world))))
    = uiMessage REQUEST_FEEDBACK.
Proof.
  assert (H : typeof (get_prop (sentimentDataOf text_score_result) "score") <> "number")
    by (vm_compute; discriminate).
  split; [exact H|].
  destruct (C7_fallback_values (host := ref_host) text_score_result H)
    as (Hscore & _ & Hrun).
  split; [exact Hscore|].
  destruct (Hrun offline_world) as (decision & Hdecision & _ & _ & Htext & _).
  rewrite Htext. vm_compute in Hdecision. injection Hdecision as <-. reflexivity.
Defined.

Lemma C10_label_duality_witness :
  determineBusinessAction (Finite 0.6) (VString "NEGATIVE") =
  determineBusinessAction (Finite 0.4) (VString "POSITIVE").
Proof.
  destruct (C10_label_duality (host := ref_host) 0.6) as [_ H].
  apply H. unfold Qeq. simpl. reflexivity.
Defined.

(** ** The boundary scenarios of the specification *)

Example scenario_positive_09 :
  determineBusinessAction (Finite 0.9) (VString "POSITIVE") = Returned ASK_REFERRAL.
Proof. reflexivity. Qed.

Example scenario_negative_09 :
  determineBusinessAction (Finite 0.9) (VString "NEGATIVE") = Returned OFFER_COUPON.
Proof. reflexivity. Qed.

Example scenario_positive_04 :
  determineBusinessAction (Finite 0.4) (VString "POSITIVE") = Returned OFFER_COUPON.
Proof. reflexivity. Qed.

Example scenario_positive_07 :
  determineBusinessAction (Finite 0.7) (VString "POSITIVE") = Returned ASK_REFERRAL.
Proof. reflexivity. Qed.

Example scenario_positive_069999 :
  determineBusinessAction (Finite 0.69999) (VString "POSITIVE") = Returned REQUEST_FEEDBACK.
Proof. reflexivity. Qed.

Example scenario_unknown_05 :
  determineBusinessAction (Finite 0.5) (VString "unknown") = Returned REQUEST_FEEDBACK.
Proof. reflexivity. Qed.

(** ** Outside the contract *)

(** A label that is truthy and not a string has no [toUpperCase]. *)
Example label_number_throws :
  determineBusinessAction (Finite 0.9) (VNumber (Finite 1)) =
  Threw (TypeError "label.toUpperCase is not a function").
Proof. reflexivity. Qed.

(** [NaN] is of type number: the renderer passes it on, both
    comparisons fail and the last branch is taken. *)
Example nan_score_is_kept :
  score (parseResult (VArray [VArray [VObject
    [("label", VString "POSITIVE"); ("score", VNumber NaN)]]])) = NaN /\
  determineBusinessAction NaN (VString "POSITIVE") = Returned ASK_REFERRAL.
Proof. split; reflexivity. Qed.

(** A network that is down costs one warning: the page shows the action. *)
Example offline_run :
  let run := displaySentiment text_score_result offline_world in
  fst run = Returned tt /\
  ad_textContent (actionResult (page (snd run))) = uiMessage REQUEST_FEEDBACK /\
  console (snd run) =
    [{| warn_message := "Error logging to Google Sheets:";
        warn_detail := DetailError (TypeError "Failed to fetch") |}].
Proof. vm_compute. repeat split. Qed.

(** * Further properties of the page *)

(** ** The classifier, beyond its contract *)

Lemma upperChar_ascii (c : ascii) :
  isAsciiChar c = true -> isAsciiChar (upperChar c) = true.
Proof.
  destruct c as [[] [] [] [] [] [] [] []]; intros H; try reflexivity; discriminate H.
Qed.



Section ClassifierMore.
Context {host : Host}.

(** X1. On ASCII labels the classifier ignores letter case. *)
Theorem label_case_is_ignored (confidence : number) (s1 s2 : string) :
  isAscii s1 = true -> isAscii s2 = true -> asciiUpper s1 = asciiUpper s2 ->
  determineBusinessAction confidence (VString s1) =
  determineBusinessAction confidence (VString s2).
Proof.
  intros H1 H2 E.
  rewrite !determineBusinessAction_string.
  rewrite (toUpperCase_ascii s1 H1), (toUpperCase_ascii s2 H2), E.
  reflexivity.
Qed.

End ClassifierMore.

(** ** The renderer *)

Section RendererMore.
Context {host : Host}.

(** The bucket is decided by the upper-cased label and the score. *)
Lemma parseResult_bucket (result : value) :
  (sentiment (parseResult result) = "positive" /\
   label (parseResult result) = "POSITIVE" /\
   num_gtb (score (parseResult result)) lit_0_5 = true) \/
  (sentiment (parseResult result) = "negative" /\
   label (parseResult result) = "NEGATIVE" /\
   num_gtb (score (parseResult result)) lit_0_5 = true) \/
  sentiment (parseResult result) = "neutral".
Proof.
  unfold parseResult. cbv zeta.
  destruct (isArray result && (0 <? arr_length result)%nat
            && isArray (arr_item result 0)
            && (0 <? arr_length (arr_item result 0))%nat); [|now right; right].
  destruct (truthy (arr_item (arr_item result 0) 0)
            && (typeof (arr_item (arr_item result 0) 0) =? "object"));
    [|now right; right].
  cbn [sentiment score label].
  set (lbl := match get_prop (arr_item (arr_item result 0) 0) "label" with
              | VString s => toUpperCase s | _ => "NEUTRAL" end).
  set (sc := match get_prop (arr_item (arr_item result 0) 0) "score" with
             | VNumber n => n | _ => lit_0_5 end).
  destruct (String.eqb_spec lbl "POSITIVE") as [Ep | Ep];
    destruct (num_gtb sc lit_0_5) eqn:Eg; cbn [andb].
  - left. auto.
  - rewrite andb_false_r. now right; right.
  - destruct (String.eqb_spec lbl "NEGATIVE") as [En | En]; cbn [andb].
    + right; left. auto.
    + now right; right.
  - rewrite andb_false_r. now right; right.
Qed.


(** X4. What is logged is what is shown: a call returns, and it sends
    one POST to the logging endpoint that carries the review on the
    page, the sentiment text, and the code of the action whose message
    and colour the page shows. *)
Theorem logged_is_shown (result : value) (w : World) :
  let run := displaySentiment result w in
  exists (decision : BusinessAction) (request : Request),
    fst run = Returned tt /\
    (decision = OFFER_COUPON \/ decision = REQUEST_FEEDBACK \/ decision = ASK_REFERRAL) /\
    ad_textContent (actionResult (page (snd run))) = uiMessage decision /\
    ad_color (actionResult (page (snd run))) = uiColor decision /\
    sent (snd run) = (sent w ++ [request])%list /\
    req_url request = GAS_WEB_APP_URL /\
    req_method request = "POST" /\
    req_body request =
      [("review", reviewText_textContent (page w));
       ("sentiment", sentimentStrOf (parseResult result));
       ("action", actionCode decision);
       ("meta", JSON_stringify (VObject
          [("userAgent", VString (userAgent (client w)));
           ("platform", VString (platform (client w)));
           ("language", VString (language (client w)));
           ("screen", VString (screenSize (client w)));
           ("timestamp", VString (timestamp (client w)))]))].
Proof.
  cbv zeta. unfold displaySentiment.
  set (l := parseResult result).
  exists (applyThresholds (normalizedScore (score l) (toUpperCase (label l)))).
  unfold render, bind, update_page, lift, fire_and_forget.
  rewrite determineBusinessAction_string. cbn [fst snd page client network].
  unfold logToGoogleSheets, try_catch, bind, fetch, console_warn, ret.
  cbn [page client network sent console].
  eexists.
  split; [reflexivity|].
  split; [apply applyThresholds_cases|].
  match goal with |- context [network w ?r] =>
    destruct (network w r) as [[|] st | reason] end;
    cbn; repeat split.
Qed.

(** X5. A result of the wrong shape is rendered as neutral: when
    [result] is not an array, is empty, or its first item is not an
    array with an object in front, the renderer keeps its defaults
    (NEUTRAL, 0.5, the neutral bucket) and the page shows the
    REQUEST_FEEDBACK message. *)
Theorem malformed_result_is_neutral (result : value) (w : World) :
  isArray result = false \/ arr_length result = 0%nat \/
  isArray (arr_item result 0) = false \/ arr_length (arr_item result 0) = 0%nat \/
  truthy (sentimentDataOf result) = false \/
  typeof (sentimentDataOf result) <> "object" ->
  parseResult result = {| sentiment := "neutral"; score := Finite 0.5; label := "NEUTRAL" |} /\
  fst (displaySentiment result w) = Returned tt /\
  ad_textContent (actionResult (page (snd (displaySentiment result w))))
    = uiMessage REQUEST_FEEDBACK /\
  sentimentResult_classList (page (snd (displaySentiment result w)))
    = classList_add "neutral" (sentimentResult_classList (page w)).
Proof.
  intros H.
  assert (E : parseResult result =
              {| sentiment := "neutral"; score := Finite 0.5; label := "NEUTRAL" |}).
  { unfold parseResult. fold (sentimentDataOf result).
    destruct H as [H | [H | [H | [H | [H | H]]]]];
      try (rewrite H; cbn; rewrite ?andb_false_r; reflexivity).
    - destruct (isArray result && (0 <? arr_length result)%nat
                && isArray (arr_item result 0)
                && (0 <? arr_length (arr_item result 0))%nat); [|reflexivity].
      now rewrite H.
    - destruct (isArray result && (0 <? arr_length result)%nat
                && isArray (arr_item result 0)
                && (0 <? arr_length (arr_item result 0))%nat); [|reflexivity].
      destruct (String.eqb_spec (typeof (sentimentDataOf result)) "object");
        [contradiction|].
      now rewrite andb_false_r. }
  split; [exact E|].
  unfold displaySentiment. rewrite E.
  destruct (render_run {| sentiment := "neutral"; score := Finite 0.5; label := "NEUTRAL" |} w)
    as (Hret & _ & _ & _ & Hclass & Htext & _).
  cbn [score label sentiment] in Htext, Hclass.
  fold lit_0_5 in Htext. rewrite fallback_confidence_is_neutral in Htext.
  now repeat split.
Qed.

End RendererMore.

(** ** The analysis *)

Section AnalysisFacts.
Context {host : Host} {text : TextHost}.

(** X6. [analyzeSentiment] changes nothing, and it settles in one of
    four ways: without a model it rejects with its own error; a
    rejection of the model is passed on; an output that is not a
    non-empty array is refused; any other output is returned wrapped in
    a one-element array. *)
Theorem analyzeSentiment_outcomes (review : value) (s : App) :
  snd (analyzeSentiment review s) = s /\
  match sentimentPipeline (globals s) with
  | None =>
      fst (analyzeSentiment review s)
      = Threw (Error "Sentiment model is not initialized.")
  | Some pipeline =>
      match pipeline review with
      | Threw e => fst (analyzeSentiment review s) = Threw e
      | Returned (VArray (first :: rest)) =>
          fst (analyzeSentiment review s) = Returned (VArray [VArray (first :: rest)])
      | Returned _ =>
          fst (analyzeSentiment review s)
          = Threw (Error "Invalid sentiment output from local model.")
      end
  end.
Proof.
  unfold analyzeSentiment.
  destruct (sentimentPipeline (globals s)) as [pipeline|]; [|now split].
  unfold run_bind, run_lift, run_throw, run_ret.
  destruct (pipeline review) as [output | e]; [|now split].
  destruct output as [| | b | n | str | [|first rest] | props]; now split.
Qed.

(** X7. The renderer reads the model's first prediction: when the
    analysis returns, its result passes the renderer's shape test, and
    the label and score rendered are those of the first item of the
    model's output. *)
Theorem renderer_reads_first_prediction
  (review : value) (s : App) (pipeline : Pipeline)
  (props : list (string * value)) (rest : list value) (lbl : string) (n : number) :
  sentimentPipeline (globals s) = Some pipeline ->
  pipeline review = Returned (VArray (VObject props :: rest)) ->
  lookup "label" props = Some (VString lbl) ->
  lookup "score" props = Some (VNumber n) ->
  exists result : value,
    fst (analyzeSentiment review s) = Returned result /\
    sentimentDataOf result = VObject props /\
    label (parseResult result) = toUpperCase lbl /\
    score (parseResult result) = n.
Proof.
  intros Hp Hout Hl Hs.
  exists (VArray [VArray (VObject props :: rest)]).
  split.
  - unfold analyzeSentiment. rewrite Hp.
    unfold run_bind, run_lift. now rewrite Hout.
  - split; [reflexivity|].
    unfold parseResult. cbn. rewrite Hl, Hs. now split.
Qed.

End AnalysisFacts.

(** ** The reviews file *)

Section ReviewsFacts.
Context {host : Host} {text : TextHost}.

(** Membership in the kept reviews. *)
Lemma keepReviews_In (data : list (list (string * value))) (v : value) :
  In v (keepReviews data) <->
  exists (row : list (string * value)) (s : string),
    In row data /\
    get_prop (VObject row) "text" = VString s /\
    trim s <> EmptyString /\
    v = VString s.
Proof.
  unfold keepReviews. rewrite filter_In, in_map_iff. split.
  - intros [(row & Hrow & Hin) Hkeep].
    destruct v as [| | b | n | s | items | props]; try discriminate.
    exists row, s. repeat split; auto.
    intros E. rewrite E in Hkeep. discriminate.
  - intros (row & s & Hin & Hget & Hne & ->). split.
    + exists row. now split.
    + destruct (String.eqb_spec (trim s) EmptyString); [contradiction | reflexivity].
Qed.

(** X8. The reviews kept are exactly the [text] cells that are strings
    and not blank: nothing else gets in, none of those is lost, and
    there are no more reviews than rows. *)
Theorem keepReviews_keeps_text (data : list (list (string * value))) :
  (forall v : value,
     In v (keepReviews data) <->
     exists (row : list (string * value)) (s : string),
       In row data /\
       get_prop (VObject row) "text" = VString s /\
       trim s <> EmptyString /\
       v = VString s) /\
  (length (keepReviews data) <= length data)%nat.
Proof.
  split.
  - apply keepReviews_In.
  - unfold keepReviews.
    rewrite <- (length_map (fun row => get_prop (VObject row) "text") data).
    apply filter_length_le.
Qed.

(** What the promise chain of [loadReviews] does to the state. *)
Lemma loadReviews_run (s : App) :
  fst (loadReviews s) = Returned tt /\
  world (snd (loadReviews s)) = world s /\
  localStorage (snd (loadReviews s)) = localStorage s /\
  outside (snd (loadReviews s)) = outside s /\
  apiToken (globals (snd (loadReviews s))) = apiToken (globals s) /\
  sentimentPipeline (globals (snd (loadReviews s))) = sentimentPipeline (globals s).
Proof.
  unfold loadReviews, detach, run_catch, run_bind, run_throw, run_lift,
    with_message, showError, update_globals, update_controls, console_entry, run_ret.
  split; [reflexivity|].
  destruct (tsvFetch (outside s)) as [[|] [body | e] | e]; cbn;
    try (destruct (error_message e); cbn; now repeat split);
    try now repeat split.
  destruct (papaParse (outside s) body) as [data | e]; cbn; [now repeat split|].
  destruct (error_message e) as [m | e']; cbn; [now repeat split|].
  destruct (error_message e'); cbn; now repeat split.
Qed.

Lemma loadReviews_reviews (s : App) :
  reviews (globals (snd (loadReviews s))) =
    match tsvFetch (outside s) with
    | TsvResponse true (Returned body) =>
        match papaParse (outside s) body with
        | ParseComplete data => keepReviews data
        | ParseFailed _ => reviews (globals s)
        end
    | _ => reviews (globals s)
    end.
Proof.
  unfold loadReviews, detach, run_catch, run_bind, run_throw, run_lift,
    with_message, showError, update_globals, update_controls, console_entry, run_ret.
  destruct (tsvFetch (outside s)) as [[|] [body | e] | e]; cbn;
    try (destruct (error_message e); cbn; reflexivity);
    try reflexivity.
  destruct (papaParse (outside s) body) as [data | e]; cbn; [reflexivity|].
  destruct (error_message e) as [m | e']; cbn; [reflexivity|].
  destruct (error_message e'); cbn; reflexivity.
Qed.

(** X9. Reviews are replaced only by a load that went through: when the
    file is fetched, read and parsed, [reviews] becomes the kept cells;
    on any failure [reviews] stays as it was.  Either way the call
    returns and leaves the page, the token, the model and the storage
    alone. *)
Theorem loadReviews_replaces_on_success (s : App) :
  let s' := snd (loadReviews s) in
  fst (loadReviews s) = Returned tt /\
  world s' = world s /\
  localStorage s' = localStorage s /\
  apiToken (globals s') = apiToken (globals s) /\
  sentimentPipeline (globals s') = sentimentPipeline (globals s) /\
  reviews (globals s') =
    match tsvFetch (outside s) with
    | TsvResponse true (Returned body) =>
        match papaParse (outside s) body with
        | ParseComplete data => keepReviews data
        | ParseFailed _ => reviews (globals s)
        end
    | _ => reviews (globals s)
    end.
Proof.
  cbv zeta.
  destruct (loadReviews_run s) as (H1 & H2 & H3 & _ & H4 & H5).
  repeat split; auto.
  apply loadReviews_reviews.
Qed.

(** X10. A failed load is shown to the user.  A response that is not ok
    puts the error's own text after the prefix; a rejected fetch, an
    unreadable body or a parser error whose message can be read is
    shown with that message. *)
Theorem loadReviews_failure_is_shown (s : App) :
  let shown := controls (snd (loadReviews s)) in
  (forall body,
     tsvFetch (outside s) = TsvResponse false body ->
     errorElement_display shown = "block" /\
     errorElement_textContent shown
       = "Failed to load TSV file: Failed to load TSV file") /\
  (forall e message,
     tsvFetch (outside s) = TsvRejected e \/
     tsvFetch (outside s) = TsvResponse true (Threw e) ->
     error_message e = Returned message ->
     errorElement_display shown = "block" /\
     errorElement_textContent shown
       = "Failed to load TSV file: " ++ toString message) /\
  (forall body e message,
     tsvFetch (outside s) = TsvResponse true (Returned body) ->
     papaParse (outside s) body = ParseFailed e ->
     error_message e = Returned message ->
     errorElement_display shown = "block" /\
     errorElement_textContent shown
       = "Failed to parse TSV file: " ++ toString message).
Proof.
  cbv zeta.
  unfold loadReviews, detach, run_catch, run_bind, run_throw, run_lift,
    with_message, showError, update_globals, update_controls, console_entry, run_ret.
  split; [|split].
  - intros body ->. cbn. rewrite toString_string. now split.
  - intros e message [-> | ->] Hm; cbn; rewrite Hm; cbn; now split.
  - intros body e message -> Hp Hm. cbn. rewrite Hp. cbn. rewrite Hm. cbn. now split.
Qed.

End ReviewsFacts.

(** ** The index of the pick (line 166)

    [Math.floor(Math.random() * reviews.length)] stays inside the list:
    the product of a double in [[0, 1)] and a length is rounded to
    nearest, and the rounding never reaches the length.  The argument
    follows the rounding of the product step by step. *)

Module Binary64Index.
Import SpecFloat FloatOps.
#[local] Open Scope Z_scope.

Lemma pow2_pos (k : Z) : 0 <= k -> 0 < 2 ^ k.
Proof. intros H. apply Z.pow_pos_nonneg; lia. Qed.

(** The number of binary digits of a mantissa brackets it. *)
Lemma digits2_pos_bounds (p : positive) :
  2 ^ (Zpos (digits2_pos p) - 1) <= Zpos p < 2 ^ Zpos (digits2_pos p).
Proof.
  induction p as [p IH | p IH |]; cbn [digits2_pos].
  - rewrite Pos2Z.inj_succ, (Pos2Z.inj_xI p).
    replace (Z.succ (Zpos (digits2_pos p)) - 1)
      with (Z.succ (Zpos (digits2_pos p) - 1)) by lia.
    rewrite !Z.pow_succ_r by lia. lia.
  - rewrite Pos2Z.inj_succ, (Pos2Z.inj_xO p).
    replace (Z.succ (Zpos (digits2_pos p)) - 1)
      with (Z.succ (Zpos (digits2_pos p) - 1)) by lia.
    rewrite !Z.pow_succ_r by lia. lia.
  - cbn. lia.
Qed.

(** One more position dropped. *)
Lemma shifted_shr_1 (T : Z) (mrs : shr_record) (X : Z) :
  0 < T -> Binary64.shifted T mrs X -> Binary64.shifted (2 * T) (shr_1 mrs) X.
Proof.
  intros HT (H0 & [Hlo Hhi] & Hr).
  destruct mrs as [m r s]. cbn [shr_m shr_r] in *.
  unfold Binary64.shifted.
  destruct m as [| [p | p |] | p]; cbn [shr_1 shr_m shr_r].
  all: try (exfalso; lia).
  - repeat split; intros; try discriminate; lia.
  - rewrite (Pos2Z.inj_xI p) in Hlo, Hhi, Hr.
    repeat split; intros; try discriminate; lia.
  - rewrite (Pos2Z.inj_xO p) in Hlo, Hhi, Hr.
    repeat split; intros; try discriminate; lia.
  - repeat split; intros; try discriminate; lia.
Qed.

Lemma shifted_iter_pos (p : positive) :
  forall (T : Z) (mrs : shr_record) (X : Z),
    0 < T -> Binary64.shifted T mrs X ->
    Binary64.shifted (T * 2 ^ Zpos p) (iter_pos shr_1 p mrs) X.
Proof.
  induction p as [p IH | p IH |]; intros T mrs X HT H; cbn [iter_pos].
  - replace (T * 2 ^ Zpos p~1) with (((2 * T) * 2 ^ Zpos p) * 2 ^ Zpos p).
    + pose proof (pow2_pos (Zpos p) ltac:(lia)) as Hp.
      apply IH; [ nia | apply IH; [ lia | apply shifted_shr_1; assumption ] ].
    + rewrite (Pos2Z.inj_xI p).
      replace (2 * Zpos p + 1) with (1 + Zpos p + Zpos p) by lia.
      rewrite !Z.pow_add_r by lia. change (2 ^ 1) with 2. ring.
  - replace (T * 2 ^ Zpos p~0) with ((T * 2 ^ Zpos p) * 2 ^ Zpos p).
    + pose proof (pow2_pos (Zpos p) ltac:(lia)) as Hp.
      apply IH; [ nia | apply IH; assumption ].
    + rewrite (Pos2Z.inj_xO p).
      replace (2 * Zpos p) with (Zpos p + Zpos p) by lia.
      rewrite !Z.pow_add_r by lia. ring.
  - change (2 ^ 1) with 2. replace (T * 2) with (2 * T) by ring.
    apply shifted_shr_1; assumption.
Qed.

(** [shr] on an exact mantissa drops [max 0 k] positions. *)
Lemma shr_spec (X e k : Z) :
  0 <= X ->
  snd (shr (Build_shr_record X false false) e k) = e + Z.max 0 k /\
  Binary64.shifted (2 ^ Z.max 0 k)
    (fst (shr (Build_shr_record X false false) e k)) X.
Proof.
  intros HX.
  assert (H1 : Binary64.shifted 1 (Build_shr_record X false false) X).
  { unfold Binary64.shifted; cbn [shr_m shr_r].
    repeat split; intros; try discriminate; lia. }
  destruct k as [| p | p]; cbn [shr fst snd].
  - split; [ lia | exact H1 ].
  - rewrite Z.max_r by lia. split; [ reflexivity | ].
    replace (2 ^ Zpos p) with (1 * 2 ^ Zpos p) by ring.
    apply shifted_iter_pos; [ lia | exact H1 ].
  - rewrite Z.max_l by lia. split; [ lia | exact H1 ].
Qed.

(** Rounding to nearest keeps the mantissa or, with the round bit set,
    adds one. *)
Lemma round_nearest_even_cases (mrs : shr_record) :
  round_nearest_even (shr_m mrs) (loc_of_shr_record mrs) = shr_m mrs \/
  (shr_r mrs = true /\
   round_nearest_even (shr_m mrs) (loc_of_shr_record mrs) = shr_m mrs + 1).
Proof.
  destruct mrs as [m [|] [|]];
    cbn [shr_m shr_r loc_of_shr_record round_nearest_even];
    try (left; reflexivity); try (right; split; reflexivity).
  destruct (Z.even m); [ left | right; split ]; reflexivity.
Qed.

(** The rounding of [P * 2^E] stays below a bound [N * 2^E] that is
    further away than half of what the rounding drops. *)
Lemma binary_round_aux_below (s : bool) (P : positive) (E N : Z) :
  2 ^ Z.max 0 (fexp prec emax (Zpos (digits2_pos P) + E) - E) < 2 * (N - Zpos P) ->
  match binary_round_aux prec emax s (Zpos P) E loc_Exact with
  | S754_zero s' => s' = s
  | S754_finite s' m e => s' = s /\ E <= e /\ Zpos m * 2 ^ (e - E) < N
  | S754_infinity _ =>
      exists (m : positive) (e : Z),
        emax - prec < e /\ E <= e /\ Zpos m * 2 ^ (e - E) < N
  | S754_nan => False
  end.
Proof.
  intros HN.
  unfold binary_round_aux, shr_fexp. cbn [Zdigits2 shr_record_of_loc].
  set (k1 := fexp prec emax (Zpos (digits2_pos P) + E) - E) in *.
  destruct (shr_spec (Zpos P) E k1 ltac:(lia)) as [He1 Hs1].
  destruct (shr _ E k1) as [mrs' e']. cbn [fst snd] in He1, Hs1.
  pose proof (pow2_pos (Z.max 0 k1) ltac:(lia)) as HT1.
  destruct Hs1 as (Hm1 & [Hlo1 Hhi1] & Hr1).
  set (m2 := round_nearest_even (shr_m mrs') (loc_of_shr_record mrs')).
  assert (Hm2 : 0 <= m2 /\ m2 * 2 ^ Z.max 0 k1 < N).
  { destruct (round_nearest_even_cases mrs') as [Heq | [Hr Heq]];
      fold m2 in Heq; rewrite Heq.
    - split; [ lia | nia ].
    - specialize (Hr1 Hr). split; [ lia | nia ]. }
  destruct Hm2 as [Hm2 Hb2].
  set (k2 := fexp prec emax (Zdigits2 m2 + e') - e').
  destruct (shr_spec m2 e' k2 Hm2) as [He2 Hs2].
  destruct (shr _ e' k2) as [mrs'' e'']. cbn [fst snd] in He2, Hs2.
  pose proof (pow2_pos (Z.max 0 k2) ltac:(lia)) as HT2.
  destruct Hs2 as (Hm3 & [Hlo3 Hhi3] & _).
  assert (Hb3 : shr_m mrs'' * 2 ^ (e'' - E) < N).
  { replace (e'' - E) with (Z.max 0 k2 + Z.max 0 k1) by lia.
    rewrite Z.pow_add_r by lia. nia. }
  destruct (shr_m mrs'') as [| m3 | m3].
  - reflexivity.
  - destruct (Z.leb e'' (emax - prec)) eqn:Hle.
    + repeat split; [ lia | exact Hb3 ].
    + exists m3, e''. apply Z.leb_gt in Hle.
      repeat split; [ lia | lia | exact Hb3 ].
  - lia.
Qed.

(** A finite double has at most 53 digits and an exponent from -1074. *)
Lemma valid_finite (x : PrimFloat.float) (s : bool) (m : positive) (e : Z) :
  Prim2SF x = S754_finite s m e ->
  Zpos (digits2_pos m) <= 53 /\ -1074 <= e /\
  (e = -1074 \/ Zpos (digits2_pos m) = 53) /\ Zpos m < 2 ^ 53.
Proof.
  intros Hx. pose proof (FloatAxioms.Prim2SF_valid x) as Hv.
  rewrite Hx in Hv. cbn [valid_binary] in Hv.
  unfold bounded, canonical_mantissa in Hv.
  apply andb_true_iff in Hv. destruct Hv as [Hc _].
  apply Z.eqb_eq in Hc. unfold fexp, SpecFloat.emin in Hc.
  change prec with 53 in Hc. change emax with 1024 in Hc.
  pose proof (digits2_pos_bounds m) as [_ Hd].
  assert (Hd53 : Zpos (digits2_pos m) <= 53) by lia.
  pose proof (Z.pow_le_mono_r 2 _ 53 ltac:(lia) Hd53).
  repeat split; lia.
Qed.

(** A double in [[0, 1)] is a zero or [m * 2^e] with [e <= -53]. *)
Lemma unit_interval_SF (r : PrimFloat.float) :
  PrimFloat.leb PrimFloat.zero r = true ->
  PrimFloat.ltb r PrimFloat.one = true ->
  (exists s, Prim2SF r = S754_zero s) \/
  (exists m e, Prim2SF r = S754_finite false m e /\
               Zpos m < 2 ^ 53 /\ -1074 <= e <= -53).
Proof.
  rewrite FloatAxioms.leb_spec, FloatAxioms.ltb_spec.
  change (Prim2SF PrimFloat.zero) with (S754_zero false).
  change (Prim2SF PrimFloat.one) with (S754_finite false 4503599627370496 (-52)).
  destruct (Prim2SF r) as [s | s | | s m e] eqn:Hr.
  - intros _ _. left. exists s. reflexivity.
  - destruct s; cbn; discriminate.
  - cbn; discriminate.
  - destruct (valid_finite r s m e Hr) as (Hd & He & Hcan & Hm).
    destruct s; [ cbn; discriminate | ].
    intros _. unfold SFltb, SFcompare.
    destruct (Z.compare e (-52)) eqn:Hc; try discriminate.
    + apply Z.compare_eq in Hc. subst e.
      destruct Hcan as [Hcan | Hcan]; [ lia | ].
      destruct (Pos.compare_cont Eq m 4503599627370496) eqn:Hm2; try discriminate.
      intros _. exfalso.
      assert (Hlt : (m < 4503599627370496)%positive) by exact Hm2.
      pose proof (digits2_pos_bounds m) as [Hlo _]. rewrite Hcan in Hlo.
      change (2 ^ (53 - 1)) with 4503599627370496 in Hlo.
      apply Pos2Z.pos_lt_pos in Hlt. clear - Hlt Hlo. lia.
    + intros _. right. exists m, e. change (e < -52) in Hc.
      repeat split; try assumption; lia.
Qed.

Lemma iter_xO_spec (d p : positive) :
  Zpos (Pos.iter xO p d) = Zpos p * 2 ^ Zpos d /\
  Zpos (digits2_pos (Pos.iter xO p d)) = Zpos (digits2_pos p) + Zpos d.
Proof.
  induction d as [| d IH] using Pos.peano_ind.
  - cbn [Pos.iter digits2_pos]. rewrite (Pos2Z.inj_xO p), Pos2Z.inj_succ.
    change (2 ^ 1) with 2. lia.
  - rewrite Pos.iter_succ. cbn [digits2_pos]. destruct IH as [IH1 IH2].
    rewrite (Pos2Z.inj_xO (Pos.iter xO p d)), !Pos2Z.inj_succ, IH1, IH2.
    rewrite Z.pow_succ_r by lia. split; ring.
Qed.

(** A mantissa that already fits is not rounded. *)
Lemma binary_round_aux_canonical (s : bool) (m : positive) (e : Z) :
  fexp prec emax (Zpos (digits2_pos m) + e) <= e -> e <= emax - prec ->
  binary_round_aux prec emax s (Zpos m) e loc_Exact = S754_finite s m e.
Proof.
  intros Hc He.
  unfold binary_round_aux, shr_fexp. cbn [Zdigits2 shr_record_of_loc].
  destruct (fexp prec emax (Zpos (digits2_pos m) + e) - e) as [| k | k] eqn:Hk;
    try lia; cbn [shr shr_m loc_of_shr_record round_nearest_even Zdigits2];
    rewrite Hk; cbn [shr shr_m];
    apply Z.leb_le in He; rewrite He; reflexivity.
Qed.

(** A length below [2^53] is a double, exactly: [mn * 2^en] with
    [en <= 0]. *)
Lemma of_length_SF (n : nat) :
  (0 < n)%nat -> Z.of_nat n < 2 ^ 53 ->
  exists mn en,
    Prim2SF (Binary64.of_length n) = S754_finite false mn en /\
    -52 <= en <= 0 /\ Zpos mn = Z.of_nat n * 2 ^ (- en).
Proof.
  intros Hn Hb. unfold Binary64.of_length.
  rewrite FloatAxioms.of_uint63_spec.
  replace (Uint63Axioms.to_Z (Uint63.of_Z (Z.of_nat n))) with (Z.of_nat n).
  2:{ symmetry. rewrite Uint63.of_Z_spec. apply Z.mod_small.
      split; [ lia | ]. eapply Z.lt_trans; [ exact Hb | reflexivity ]. }
  destruct (Z.of_nat n) as [| p | p] eqn:Hp; try lia.
  cbn [binary_normalize]. unfold binary_round.
  pose proof (digits2_pos_bounds p) as [Hlo Hhi].
  assert (Hd : Zpos (digits2_pos p) <= 53).
  { destruct (Z.le_gt_cases (Zpos (digits2_pos p)) 53) as [H | H];
      [ exact H | exfalso ].
    pose proof (Z.pow_le_mono_r 2 53 (Zpos (digits2_pos p) - 1)
                  ltac:(lia) ltac:(lia)). lia. }
  unfold shl_align.
  replace (fexp prec emax (Zpos (digits2_pos p) + 0))
    with (Zpos (digits2_pos p) - 53).
  2:{ unfold fexp, SpecFloat.emin. change prec with 53. change emax with 1024. lia. }
  destruct (Zpos (digits2_pos p) - 53 - 0) as [| d | d] eqn:Hk; try lia.
  - exists p, 0. split; [ | split; [ lia | change (2 ^ (- 0)) with 1; lia ] ].
    apply binary_round_aux_canonical.
    + unfold fexp, SpecFloat.emin. change prec with 53. change emax with 1024. lia.
    + change prec with 53. change emax with 1024. lia.
  - destruct (iter_xO_spec d p) as [Hv Hdig].
    exists (Pos.iter xO p d), (Zpos (digits2_pos p) - 53).
    split; [ | split; [ lia | ] ].
    + apply binary_round_aux_canonical.
      * rewrite Hdig. unfold fexp, SpecFloat.emin.
        change prec with 53. change emax with 1024. lia.
      * change prec with 53. change emax with 1024. lia.
    + rewrite Hv. f_equal. f_equal. lia.
Qed.

(** The integer below [m * 2^e], when that is below [n]. *)
Lemma shiftl_below (m : positive) (e E n : Z) :
  E <= 0 -> E <= e -> 0 < n ->
  Zpos m * 2 ^ (e - E) < n * 2 ^ (- E) ->
  0 <= Z.shiftl (Zpos m) e < n.
Proof.
  intros HE Hle Hn Hb.
  pose proof (pow2_pos (- E) ltac:(lia)) as HpE.
  destruct (Z.le_gt_cases 0 e) as [He | He].
  - rewrite Z.shiftl_mul_pow2 by exact He.
    pose proof (pow2_pos e He) as Hpe.
    replace (e - E) with (e + - E) in Hb by lia.
    rewrite Z.pow_add_r in Hb by lia.
    split; [ nia | nia ].
  - rewrite Z.shiftl_div_pow2 by lia.
    pose proof (pow2_pos (- e) ltac:(lia)) as Hpe.
    pose proof (pow2_pos (e - E) ltac:(lia)) as HpK.
    replace (- E) with ((e - E) + - e) in Hb by lia.
    rewrite Z.pow_add_r in Hb by lia.
    split.
    + apply Z.div_pos; lia.
    + apply Z.div_lt_upper_bound; [ exact Hpe | nia ].
Qed.

(** Line 166: with [Math.random()] in [[0, 1)] and a list that is not
    empty, the index is an index of the list. *)
Lemma random_index_in_range (random : PrimFloat.float) (count : nat) :
  PrimFloat.leb PrimFloat.zero random = true ->
  PrimFloat.ltb random PrimFloat.one = true ->
  (0 < count)%nat -> Z.of_nat count < 2 ^ 53 ->
  exists i, Binary64.random_index random count = Some i /\ 0 <= i < Z.of_nat count.
Proof.
  intros H0 H1 Hn Hb.
  unfold Binary64.random_index, Binary64.floor_index.
  rewrite FloatAxioms.mul_spec.
  destruct (of_length_SF count Hn Hb) as (mn & en & Hlen & Hen & Hmn).
  rewrite Hlen.
  destruct (unit_interval_SF random H0 H1) as [[s Hr] | (m & e & Hr & Hm & He)];
    rewrite Hr.
  - exists 0. split; [ reflexivity | lia ].
  - unfold FloatAxioms.SF64mul, SFmul. cbn [xorb].
    pose proof (pow2_pos (- en) ltac:(lia)) as Hpen.
    pose proof (pow2_pos (- e) ltac:(lia)) as Hpe.
    assert (Hme : Zpos m < 2 ^ (- e)).
    { pose proof (Z.pow_le_mono_r 2 53 (- e) ltac:(lia) ltac:(lia)). lia. }
    assert (HN : Zpos mn * 2 ^ (- e) = Z.of_nat count * 2 ^ (- (e + en))).
    { rewrite Hmn. replace (- (e + en)) with (- en + - e) by lia.
      rewrite Z.pow_add_r by lia. ring. }
    pose proof (binary_round_aux_below false (m * mn) (e + en)
                  (Zpos mn * 2 ^ (- e))) as Hround.
    assert (Hgap : 2 ^ Z.max 0 (fexp prec emax (Zpos (digits2_pos (m * mn)) + (e + en))
                                - (e + en))
                   < 2 * (Zpos mn * 2 ^ (- e) - Zpos (m * mn))).
    { rewrite Pos2Z.inj_mul.
      assert (Hmn1 : Zpos mn <= Zpos mn * 2 ^ (- e) - Zpos m * Zpos mn) by nia.
      enough (2 ^ Z.max 0 (fexp prec emax (Zpos (digits2_pos (m * mn)) + (e + en))
                           - (e + en))
              < 2 * Zpos mn) by lia.
      unfold fexp, SpecFloat.emin. change prec with 53. change emax with 1024.
      pose proof (digits2_pos_bounds (m * mn)) as [Hdlo _].
      rewrite Pos2Z.inj_mul in Hdlo.
      set (d := Zpos (digits2_pos (m * mn))) in *.
      destruct (Z.max_spec 0 (Z.max (d + (e + en) - 53) (3 - 1024 - 53) - (e + en)))
        as [[Hlt Heq] | [Hge Heq]]; rewrite Heq.
      - destruct (Z.max_spec (d + (e + en) - 53) (3 - 1024 - 53))
          as [[Hlt2 Heq2] | [Hge2 Heq2]]; rewrite Heq2 in *.
        + (* the product is subnormal *)
          pose proof (Z.pow_le_mono_r 2 (3 - 1024 - 53 - (e + en)) (- en)
                        ltac:(lia) ltac:(lia)).
          nia.
        + (* 53 digits are kept *)
          replace (d + (e + en) - 53 - (e + en)) with (d - 53) in * by lia.
          assert (Hsplit : 2 ^ (d - 1) = 2 ^ (d - 53) * 2 ^ 52).
          { rewrite <- Z.pow_add_r by lia. f_equal. lia. }
          rewrite Hsplit in Hdlo.
          pose proof (pow2_pos (d - 53) ltac:(lia)).
          change (2 ^ 52) with 4503599627370496 in Hdlo.
          change (2 ^ 53) with 9007199254740992 in Hm.
          nia.
      - change (2 ^ 0) with 1. lia. }
    specialize (Hround Hgap).
    destruct (binary_round_aux prec emax false (Zpos (m * mn)) (e + en) loc_Exact)
      as [s' | s' | | s' m3 e3].
    + exists 0. split; [ reflexivity | lia ].
    + exfalso. destruct Hround as (m3 & e3 & Hbig & HE & Hlt).
      change prec with 53 in Hbig. change emax with 1024 in Hbig.
      rewrite HN in Hlt.
      destruct (shiftl_below m3 e3 (e + en) (Z.of_nat count)
                  ltac:(lia) HE ltac:(lia) Hlt) as [_ Hidx].
      rewrite Z.shiftl_mul_pow2 in Hidx by lia.
      pose proof (Z.pow_le_mono_r 2 53 e3 ltac:(lia) ltac:(lia)). nia.
    + contradiction.
    + destruct Hround as (Hs & HE & Hlt). subst s'. cbn [cond_Zopp].
      rewrite HN in Hlt.
      exists (Z.shiftl (Zpos m3) e3). split; [ reflexivity | ].
      apply (shiftl_below m3 e3 (e + en)); [ lia | exact HE | lia | exact Hlt ].
Qed.

End Binary64Index.

(** ** The click *)

Lemma arr_index_in_range (items : list value) (i : Z) :
  (0 <= i < Z.of_nat (length items))%Z -> In (arr_index items i) items.
Proof.
  intros [H0 H1]. unfold arr_index.
  destruct (Z.ltb_spec i 0); [lia|].
  apply nth_In. lia.
Qed.

(** Lines 165-166: with [Math.random()] in [[0, 1)] the item picked is
    an item of the list. *)
Lemma picked_item_In (items : list value) (random : PrimFloat.float) :
  items <> [] ->
  PrimFloat.leb PrimFloat.zero random = true ->
  PrimFloat.ltb random PrimFloat.one = true ->
  (Z.of_nat (length items) < 2 ^ 53)%Z ->
  In (arr_at items (Binary64.random_index random (length items))) items.
Proof.
  intros Hne H0 H1 Hb.
  destruct (Binary64Index.random_index_in_range random (length items) H0 H1)
    as (i & -> & Hi); [ | exact Hb | ].
  - destruct items; [contradiction | cbn; lia].
  - cbn [arr_at]. now apply arr_index_in_range.
Qed.

Section ClickFacts.
Context {host : Host} {text : TextHost}.

(** What a click does once the two guards are passed. *)
Lemma analyzeRandomReview_run (s : App) (pipeline : Pipeline) :
  reviews (globals s) <> [] ->
  sentimentPipeline (globals s) = Some pipeline ->
  let s' := snd (analyzeRandomReview s) in
  fst (analyzeRandomReview s) = Returned tt /\
  globals s' = globals s /\
  localStorage s' = localStorage s /\
  outside s' = outside s /\
  loadingElement_display (controls s') = "none" /\
  analyzeBtn_disabled (controls s') = false /\
  apiTokenInput_value (controls s') = apiTokenInput_value (controls s) /\
  statusElement_textContent (controls s') = statusElement_textContent (controls s) /\
  match fst (analyzeSentiment (pickedReview s) s) with
  | Returned result =>
      world s' = snd (displaySentiment result (prepared_world s)) /\
      journal s' = journal s /\
      errorElement_display (controls s') = "none" /\
      errorElement_textContent (controls s') = errorElement_textContent (controls s)
  | Threw e =>
      world s' = prepared_world s /\
      journal s' = (journal s ++ [ConsoleError "Error:" e])%list /\
      match error_message e with
      | Returned message =>
          errorElement_display (controls s') = "block" /\
          errorElement_textContent (controls s') =
            (if truthy message then toString message
             else "Failed to analyze sentiment.")
      | Threw _ =>
          errorElement_display (controls s') = "none" /\
          errorElement_textContent (controls s') = errorElement_textContent (controls s)
      end
  end.
Proof.
  intros Hne Hp. cbv zeta.
  destruct (analyzeRandomReview s) as [r s'] eqn:E.
  unfold analyzeRandomReview, beginAnalysis, settleAnalysis, analyzeSentiment,
    run_bind, hideError, showError,
    set_loading, update_controls, in_world, update_page, detach, run_finally,
    run_catch, run_lift, run_throw, run_ret, console_entry in E |- *.
  cbn [fst snd world globals controls localStorage journal outside
       page client console sent network
       reviewText_textContent sentimentResult_classList sentimentResult_innerHTML
       actionResult errorElement_textContent errorElement_display
       loadingElement_display analyzeBtn_disabled apiTokenInput_value
       statusElement_textContent] in E.
  destruct (Nat.eqb_spec (length (reviews (globals s))) 0) as [Hz | _].
  { apply length_zero_iff_nil in Hz. contradiction. }
  rewrite Hp in E |- *.
  cbn [fst snd world globals controls localStorage journal outside
       page client console sent network
       reviewText_textContent sentimentResult_classList sentimentResult_innerHTML
       actionResult errorElement_textContent errorElement_display
       loadingElement_display analyzeBtn_disabled apiTokenInput_value
       statusElement_textContent] in E.
  fold (pickedReview s) in E. fold (prepared_world s) in E.
  destruct (pipeline (pickedReview s)) as [output | e].
  - destruct (negb (isArray output) || (arr_length output =? 0)%nat).
    + cbn in E. injection E as <- <-. cbn. repeat split.
    + cbn [fst snd world globals controls localStorage journal outside] in E.
      pose proof (render_run (parseResult (VArray [output])) (prepared_world s)) as Hrun.
      cbv zeta in Hrun. destruct Hrun as [Hret _].
      fold (displaySentiment (VArray [output])) in Hret.
      destruct (displaySentiment (VArray [output]) (prepared_world s))
        as [dr dw] eqn:Ed.
      cbn [fst] in Hret. subst dr.
      cbn [fst snd world globals controls localStorage journal outside
           errorElement_textContent errorElement_display
           loadingElement_display analyzeBtn_disabled apiTokenInput_value
           statusElement_textContent] in E.
      injection E as <- <-.
      cbn [fst snd world globals controls localStorage journal outside
           errorElement_textContent errorElement_display
           loadingElement_display analyzeBtn_disabled apiTokenInput_value
           statusElement_textContent].
      repeat split. now rewrite Ed.
  - destruct (error_message e) as [message | e'] eqn:Em;
      cbn in E; rewrite ?Em in E; cbn in E; injection E as <- <-;
      cbn; rewrite ?Em; repeat split.
Qed.

(** X11. Without reviews, or without a model, a click only reports it:
    the error text is shown, and nothing else on the page, in the
    globals, in the storage or on the network changes. *)
Theorem click_refused_without_data (s : App) :
  reviews (globals s) = [] \/ sentimentPipeline (globals s) = None ->
  let s' := snd (analyzeRandomReview s) in
  fst (analyzeRandomReview s) = Returned tt /\
  world s' = world s /\
  globals s' = globals s /\
  localStorage s' = localStorage s /\
  journal s' = journal s /\
  loadingElement_display (controls s') = loadingElement_display (controls s) /\
  analyzeBtn_disabled (controls s') = analyzeBtn_disabled (controls s) /\
  errorElement_display (controls s') = "block" /\
  errorElement_textContent (controls s') =
    match reviews (globals s) with
    | [] => "No reviews available. Please try again later."
    | _ => "Sentiment model is not ready yet. Please wait a moment."
    end.
Proof.
  intros H. cbv zeta.
  unfold analyzeRandomReview, run_bind, hideError, showError, update_controls.
  cbn [globals].
  destruct (reviews (globals s)) as [|r0 rs] eqn:Hr.
  - cbn. repeat split.
  - destruct H as [H | H]; [discriminate|].
    cbn [length Nat.eqb]. rewrite H. cbn. repeat split.
Qed.

(** When the click is over the review on the page is the one that was
    picked, however the analysis went. *)
Lemma click_shows_the_picked_review (s : App) (pipeline : Pipeline) :
  reviews (globals s) <> [] ->
  sentimentPipeline (globals s) = Some pipeline ->
  reviewText_textContent (page (world (snd (analyzeRandomReview s))))
    = textContent_of (pickedReview s).
Proof.
  intros Hne Hp.
  destruct (analyzeRandomReview_run s pipeline Hne Hp)
    as (_ & _ & _ & _ & _ & _ & _ & _ & Hcase).
  destruct (fst (analyzeSentiment (pickedReview s) s)) as [result | e].
  - destruct Hcase as [-> _].
    unfold displaySentiment.
    now destruct (render_run (parseResult result) (prepared_world s))
      as (_ & _ & _ & -> & _).
  - now destruct Hcase as [-> _].
Qed.

(** X12. With [Math.random()] in [[0, 1)], as the engine returns it,
    the review picked is one of the loaded reviews, and it is the text
    on the page when the click is over, however the analysis went.  The
    index is the floor of the binary64 product and the list is shorter
    than [2^53], which every array is. *)
Theorem click_shows_a_loaded_review (s : App) (pipeline : Pipeline) :
  reviews (globals s) <> [] ->
  sentimentPipeline (globals s) = Some pipeline ->
  PrimFloat.leb PrimFloat.zero (mathRandom (outside s)) = true ->
  PrimFloat.ltb (mathRandom (outside s)) PrimFloat.one = true ->
  (Z.of_nat (length (reviews (globals s))) < 2 ^ 53)%Z ->
  In (pickedReview s) (reviews (globals s)) /\
  reviewText_textContent (page (world (snd (analyzeRandomReview s))))
    = textContent_of (pickedReview s).
Proof.
  intros Hne Hp H0 H1 Hb. split.
  - unfold pickedReview. now apply picked_item_In.
  - now apply click_shows_the_picked_review with pipeline.
Qed.




(** X14. A failed analysis is reported and nothing of it is rendered or
    logged: the error's message, or the stock text when it has none, is
    shown; the error goes to the console; no request leaves; the
    sentiment line stays cleared, and the action banner is left as it
    was before the click. *)
Theorem failed_analysis_is_reported
  (s : App) (pipeline : Pipeline) (e : error) (message : value) :
  reviews (globals s) <> [] ->
  sentimentPipeline (globals s) = Some pipeline ->
  fst (analyzeSentiment (pickedReview s) s) = Threw e ->
  error_message e = Returned message ->
  let s' := snd (analyzeRandomReview s) in
  errorElement_display (controls s') = "block" /\
  errorElement_textContent (controls s') =
    (if truthy message then toString message else "Failed to analyze sentiment.") /\
  journal s' = (journal s ++ [ConsoleError "Error:" e])%list /\
  sent (world s') = sent (world s) /\
  console (world s') = console (world s) /\
  sentimentResult_innerHTML (page (world s')) = EmptyString /\
  sentimentResult_classList (page (world s')) = ["sentiment-result"] /\
  actionResult (page (world s')) = actionResult (page (world s)).
Proof.
  intros Hne Hp Hfail Hm. cbv zeta.
  destruct (analyzeRandomReview_run s pipeline Hne Hp)
    as (_ & _ & _ & _ & _ & _ & _ & _ & Hcase).
  rewrite Hfail, Hm in Hcase.
  destruct Hcase as (-> & -> & -> & ->).
  now repeat split.
Qed.


(** X16. After a load that went through, a click shows a review of the
    file: with [Math.random()] in [[0, 1)] and fewer than [2^53] rows,
    the text on the page is the [text] cell of one of the parsed rows,
    and it is not blank. *)
Theorem click_after_load_shows_a_review
  (s : App) (body : string) (data : list (list (string * value)))
  (pipeline : Pipeline) :
  tsvFetch (outside s) = TsvResponse true (Returned body) ->
  papaParse (outside s) body = ParseComplete data ->
  keepReviews data <> [] ->
  sentimentPipeline (globals s) = Some pipeline ->
  PrimFloat.leb PrimFloat.zero (mathRandom (outside s)) = true ->
  PrimFloat.ltb (mathRandom (outside s)) PrimFloat.one = true ->
  (Z.of_nat (length data) < 2 ^ 53)%Z ->
  exists (row : list (string * value)) (t : string),
    In row data /\
    get_prop (VObject row) "text" = VString t /\
    trim t <> EmptyString /\
    reviewText_textContent
      (page (world (snd (analyzeRandomReview (snd (loadReviews s)))))) = t.
Proof.
  intros Hf Hparse Hne Hp H0 H1 Hb.
  set (s1 := snd (loadReviews s)).
  destruct (loadReviews_run s) as (_ & _ & _ & Hout & _ & Hpipe).
  fold s1 in Hout, Hpipe.
  assert (Hr : reviews (globals s1) = keepReviews data).
  { unfold s1. rewrite loadReviews_reviews, Hf, Hparse. reflexivity. }
  assert (Hne1 : reviews (globals s1) <> []) by now rewrite Hr.
  assert (Hp1 : sentimentPipeline (globals s1) = Some pipeline) by now rewrite Hpipe.
  assert (Hlen : (length (keepReviews data) <= length data)%nat).
  { unfold keepReviews.
    rewrite <- (length_map (fun row => get_prop (VObject row) "text") data).
    apply filter_length_le. }
  assert (Hin : In (pickedReview s1) (keepReviews data)).
  { unfold pickedReview. rewrite Hr, Hout.
    apply picked_item_In; auto.
    eapply Z.le_lt_trans; [ apply Nat2Z.inj_le; exact Hlen | exact Hb ]. }
  apply keepReviews_In in Hin.
  destruct Hin as (row & t & Hrow & Hget & Hblank & Hpick).
  exists row, t. repeat split; auto.
  rewrite (click_shows_the_picked_review s1 pipeline Hne1 Hp1), Hpick.
  cbn [textContent_of]. apply toString_string.
Qed.

(** X21. A click never piles up bucket classes: after a successful
    analysis the sentiment line carries its base class and exactly one
    of positive, negative and neutral, whatever it carried before. *)
Theorem click_leaves_one_bucket_class
  (s : App) (pipeline : Pipeline) (result : value) :
  reviews (globals s) <> [] ->
  sentimentPipeline (globals s) = Some pipeline ->
  fst (analyzeSentiment (pickedReview s) s) = Returned result ->
  exists bucket : string,
    (bucket = "positive" \/ bucket = "negative" \/ bucket = "neutral") /\
    bucket = sentiment (parseResult result) /\
    sentimentResult_classList (page (world (snd (analyzeRandomReview s))))
      = ["sentiment-result"; bucket].
Proof.
  intros Hne Hp Hok.
  destruct (analyzeRandomReview_run s pipeline Hne Hp)
    as (_ & _ & _ & _ & _ & _ & _ & _ & Hcase).
  rewrite Hok in Hcase. destruct Hcase as (-> & _).
  unfold displaySentiment.
  destruct (render_run (parseResult result) (prepared_world s))
    as (_ & _ & _ & _ & Hclass & _).
  rewrite Hclass. cbn [prepared_world page sentimentResult_classList].
  exists (sentiment (parseResult result)).
  destruct (parseResult_bucket result) as [(Hs & _) | [(Hs & _) | Hs]];
    rewrite Hs; repeat split; auto.
Qed.

End ClickFacts.

(** ** The token and the model *)

Section SetupFacts.
Context {host : Host} {text : TextHost}.

(** X17. Saving keeps the trimmed token, in [apiToken] and in the
    storage: a token that is not blank is stored under [hfApiToken], a
    blank one removes the entry, so an empty token is never stored; no
    other key of the storage changes. *)
Theorem saveApiToken_stores_trimmed (s : App) :
  let token := trim (apiTokenInput_value (controls s)) in
  let s' := snd (saveApiToken s) in
  fst (saveApiToken s) = Returned tt /\
  apiToken (globals s') = token /\
  (token <> EmptyString -> localStorage s' "hfApiToken" = Some token) /\
  (token = EmptyString -> localStorage s' "hfApiToken" = None) /\
  localStorage s' "hfApiToken" <> Some EmptyString /\
  (forall key, key <> "hfApiToken" -> localStorage s' key = localStorage s key) /\
  reviews (globals s') = reviews (globals s) /\
  sentimentPipeline (globals s') = sentimentPipeline (globals s) /\
  world s' = world s /\
  controls s' = controls s.
Proof.
  cbv zeta. unfold saveApiToken, run_bind, update_globals, update_storage.
  cbn [fst snd].
  destruct (String.eqb_spec (trim (apiTokenInput_value (controls s))) EmptyString)
    as [E | E]; cbn; unfold setItem, removeItem; cbn.
  - repeat split; try congruence.
    intros key Hk. now destruct (String.eqb_spec key "hfApiToken").
  - repeat split; try congruence.
    intros key Hk. now destruct (String.eqb_spec key "hfApiToken").
Qed.

(** X18. A saved token comes back: on a page whose storage holds what
    [saveApiToken] left, the start-up code puts the trimmed token into
    [apiToken] and into the input; after a blank token was saved it
    leaves both alone. *)
Theorem saved_token_is_restored (s page2 : App) :
  localStorage page2 "hfApiToken" = localStorage (snd (saveApiToken s)) "hfApiToken" ->
  let token := trim (apiTokenInput_value (controls s)) in
  let s' := snd (restoreSavedToken page2) in
  (token <> EmptyString ->
   apiToken (globals s') = token /\ apiTokenInput_value (controls s') = token) /\
  (token = EmptyString ->
   apiToken (globals s') = apiToken (globals page2) /\
   apiTokenInput_value (controls s') = apiTokenInput_value (controls page2)).
Proof.
  intros Hstore. cbv zeta.
  unfold restoreSavedToken. rewrite Hstore.
  unfold saveApiToken, run_bind, update_globals, update_storage, update_controls, run_ret.
  cbn [fst snd].
  destruct (String.eqb_spec (trim (apiTokenInput_value (controls s))) EmptyString)
    as [E | E]; cbn; unfold setItem, removeItem; cbn.
  - split; [intros H; contradiction | now split].
  - destruct (String.eqb_spec (trim (apiTokenInput_value (controls s))) EmptyString);
      [contradiction|].
    cbn. split; [now split | intros H; contradiction].
Qed.

(** X19. Loading the model never throws.  When the loader resolves, the
    pipeline is the one it gave and no error is raised; when it
    rejects, the pipeline stays as it was, the error is shown and
    written to the console, and the status, if the page has one, says
    so. *)
Theorem initSentimentModel_outcomes (s : App) :
  let s' := snd (initSentimentModel s) in
  fst (initSentimentModel s) = Returned tt /\
  world s' = world s /\
  reviews (globals s') = reviews (globals s) /\
  apiToken (globals s') = apiToken (globals s) /\
  localStorage s' = localStorage s /\
  match loadModel (outside s) with
  | Returned loaded =>
      sentimentPipeline (globals s') = Some loaded /\
      journal s' = journal s /\
      errorElement_display (controls s') = errorElement_display (controls s) /\
      errorElement_textContent (controls s') = errorElement_textContent (controls s) /\
      statusElement_textContent (controls s') =
        option_map (fun _ => "Sentiment model ready")
                   (statusElement_textContent (controls s))
  | Threw e =>
      sentimentPipeline (globals s') = sentimentPipeline (globals s) /\
      journal s' = (journal s ++ [ConsoleError "Failed to load sentiment model:" e])%list /\
      errorElement_display (controls s') = "block" /\
      errorElement_textContent (controls s') =
        "Failed to load sentiment model. Please check your network connection and try again." /\
      statusElement_textContent (controls s') =
        option_map (fun _ => "Model load failed")
                   (statusElement_textContent (controls s))
  end.
Proof.
  cbv zeta.
  unfold initSentimentModel, run_catch, run_bind, set_status, showError,
    update_controls, update_globals, console_entry, run_lift.
  cbn [fst snd world globals controls localStorage journal outside].
  destruct (loadModel (outside s)) as [loaded | e]; cbn;
    destruct (statusElement_textContent (controls s)); cbn; repeat split.
Qed.

(** X20. The model that was loaded is the model that is asked, and a
    model that failed to load turns every click away: after a
    successful start a review is analysed by the loaded pipeline; after
    a failed one, on a page that had no model, a click shows that the
    model is not ready and sends nothing. *)
Theorem model_load_decides_the_click (s : App) :
  let s1 := snd (initSentimentModel s) in
  (forall (loaded : Pipeline) (review : value),
     loadModel (outside s) = Returned loaded ->
     fst (analyzeSentiment review s1) =
       match loaded review with
       | Returned (VArray (first :: rest)) => Returned (VArray [VArray (first :: rest)])
       | Returned _ => Threw (Error "Invalid sentiment output from local model.")
       | Threw e => Threw e
       end) /\
  (forall e : error,
     loadModel (outside s) = Threw e ->
     sentimentPipeline (globals s) = None ->
     reviews (globals s) <> [] ->
     errorElement_textContent (controls (snd (analyzeRandomReview s1)))
       = "Sentiment model is not ready yet. Please wait a moment." /\
     world (snd (analyzeRandomReview s1)) = world s).
Proof.
  cbv zeta. split.
  - intros loaded review Hl.
    unfold analyzeSentiment, initSentimentModel, run_catch, run_bind, set_status,
      showError, update_controls, update_globals, console_entry, run_lift,
      run_throw, run_ret.
    cbn [fst snd world globals controls localStorage journal outside].
    rewrite Hl. cbn.
    destruct (loaded review) as [output | e]; [|reflexivity].
    destruct output as [| | b | n | str | [|first rest] | props]; reflexivity.
  - intros e Hl Hnone Hne.
    unfold analyzeRandomReview, initSentimentModel, run_catch, run_bind, set_status,
      hideError, showError, update_controls, update_globals, console_entry, run_lift.
    cbn [fst snd world globals controls localStorage journal outside].
    rewrite Hl. cbn.
    destruct (reviews (globals s)) as [|r0 rs]; [contradiction|].
    cbn. rewrite Hnone. cbn. now split.
Qed.

End SetupFacts.

(** ** The further properties at concrete inputs, on the reference host *)

Lemma label_case_is_ignored_witness :
  determineBusinessAction (Finite 0.9) (VString "Positive") =
  determineBusinessAction (Finite 0.9) (VString "pOSITIVE").
Proof.
  apply (label_case_is_ignored); reflexivity.
Defined.

Lemma malformed_result_is_neutral_witness :
  parseResult (VArray []) =
    {| sentiment := "neutral"; score := Finite 0.5; label := "NEUTRAL" |} /\
  ad_textContent (actionResult (page (snd (displaySentiment (VArray []) offline_world))))
    = uiMessage REQUEST_FEEDBACK.
Proof.
  destruct (malformed_result_is_neutral (VArray []) offline_world)
    as (Hparse & _ & Htext & _).
  - right. left. reflexivity.
  - split; [exact Hparse | exact Htext].
Defined.

Lemma renderer_reads_first_prediction_witness :
  exists result : value,
    fst (analyzeSentiment (VString "Great product") ready_app) = Returned result /\
    label (parseResult result) = "POSITIVE" /\
    score (parseResult result) = Finite 0.98.
Proof.
  destruct (renderer_reads_first_prediction
              (VString "Great product") ready_app confident_pipeline
              [("label", VString "POSITIVE"); ("score", VNumber (Finite 0.98))]
              [] "POSITIVE" (Finite 0.98))
    as (result & Hret & _ & Hlabel & Hscore); try reflexivity.
  exists result. split; [exact Hret|]. split; [exact Hlabel | exact Hscore].
Defined.

Lemma click_refused_without_data_witness :
  errorElement_textContent (controls (snd (analyzeRandomReview fresh_app)))
    = "No reviews available. Please try again later." /\
  world (snd (analyzeRandomReview fresh_app)) = world fresh_app.
Proof.
  destruct (click_refused_without_data fresh_app)
    as (_ & Hworld & _ & _ & _ & _ & _ & _ & Htext).
  - left. reflexivity.
  - split; [exact Htext | exact Hworld].
Defined.

Lemma failed_analysis_is_reported_witness :
  errorElement_textContent (controls (snd (analyzeRandomReview broken_app)))
    = "Model session was lost" /\
  sent (world (snd (analyzeRandomReview broken_app))) = [].
Proof.
  destruct (failed_analysis_is_reported
              broken_app broken_pipeline (Error "Model session was lost")
              (VString "Model session was lost"))
    as (_ & Htext & _ & Hsent & _).
  - simpl. discriminate.
  - reflexivity.
  - reflexivity.
  - reflexivity.
  - split; [exact Htext | exact Hsent].
Defined.


Lemma saved_token_is_restored_witness :
  apiToken (globals (snd (restoreSavedToken reopened_app))) = "hf_abc" /\
  apiTokenInput_value (controls (snd (restoreSavedToken reopened_app))) = "hf_abc".
Proof.
  destruct (saved_token_is_restored
              fresh_app reopened_app)
    as (Hsaved & _).
  - reflexivity.
  - apply Hsaved. vm_compute. discriminate.
Defined.

Lemma loadReviews_failure_is_shown_witness :
  errorElement_textContent (controls (snd (loadReviews
    {| world := offline_world; globals := globals fresh_app;
       controls := sample_controls; localStorage := fun _ => None; journal := [];
       outside := {| mathRandom := Binary64.three_quarters; tsvFetch := TsvResponse false (Returned EmptyString);
                     papaParse := fun _ => ParseComplete [];
                     loadModel := Returned confident_pipeline |} |})))
  = "Failed to load TSV file: Failed to load TSV file".
Proof.
  match goal with |- context [loadReviews ?s] =>
    destruct (loadReviews_failure_is_shown s)
      as (Hnotok & _)
  end.
  destruct (Hnotok (Returned EmptyString) eq_refl) as [_ Htext].
  exact Htext.
Defined.

Lemma model_load_decides_the_click_witness :
  fst (analyzeSentiment (VString "Great product") (snd (initSentimentModel fresh_app)))
  = Returned (VArray [VArray [VObject [("label", VString "POSITIVE");
                                       ("score", VNumber (Finite 0.98))]]]).
Proof.
  destruct (model_load_decides_the_click fresh_app)
    as (Hloaded & _).
  exact (Hloaded confident_pipeline (VString "Great product") eq_refl).
Defined.

Lemma click_leaves_one_bucket_class_witness :
  sentimentResult_classList (page (world (snd (analyzeRandomReview ready_app))))
    = ["sentiment-result"; "positive"].
Proof.
  destruct (click_leaves_one_bucket_class
              ready_app confident_pipeline
              (VArray [VArray [VObject [("label", VString "POSITIVE");
                                        ("score", VNumber (Finite 0.98))]]]))
    as (bucket & _ & Hbucket & Hclass).
  - simpl. discriminate.
  - reflexivity.
  - reflexivity.
  - rewrite Hclass, Hbucket. reflexivity.
Defined.


Lemma click_shows_a_loaded_review_witness :
  In (pickedReview ready_app) (reviews (globals ready_app)) /\
  reviewText_textContent (page (world (snd (analyzeRandomReview ready_app))))
    = "Broke after a week".
Proof.
  destruct (click_shows_a_loaded_review ready_app confident_pipeline)
    as (Hin & Hshown).
  - simpl. discriminate.
  - reflexivity.
  - reflexivity.
  - reflexivity.
  - reflexivity.
  - split; [exact Hin|]. rewrite Hshown. reflexivity.
Defined.

Lemma click_after_load_shows_a_review_witness :
  exists (row : list (string * value)) (t : string),
    In row sample_rows /\
    get_prop (VObject row) "text" = VString t /\
    trim t <> EmptyString /\
    reviewText_textContent
      (page (world (snd (analyzeRandomReview (snd (loadReviews ready_app)))))) = t.
Proof.
  assert (Hkept : keepReviews (text := ref_text) sample_rows <> []) by (vm_compute; discriminate).
  exact (click_after_load_shows_a_review
           ready_app "text" sample_rows confident_pipeline
           eq_refl eq_refl Hkept eq_refl eq_refl eq_refl eq_refl).
Defined.

(** The pick agrees with the engine where the product rounds up: with
    three reviews and [Math.random() = 0.6666666666666666] the product
    is 2 and the third review is picked. *)
Example pick_rounds_as_the_engine :
  Binary64.random_index Binary64.two_thirds_below 3 = Some 2%Z /\
  pickedReview three_reviews_app = VString "third" /\
  reviewText_textContent (page (world (snd (analyzeRandomReview three_reviews_app))))
    = "third".
Proof. repeat split. Qed.
